(** * Keboola MCP tool adapter: argument reconciliation, facade and loader

    A shallow embedding of [src/langchain/keboola_mcp_tools.py] (the
    LangChain tool facade [KeboolaMCPTool] and its loader
    [KeboolaMCPToolLoader]) and of the environment validation of
    [src/data_analysis_crew.py].

    Python dictionaries that are only looked up, filtered and compared
    (argument payloads, the process environment) are [gmap]s; the schema's
    [properties] dictionary, whose iteration order the code relies on, is an
    association list in declaration order. *)

From stdpp Require Import gmap strings list fin_maps fin_map_dom pretty.
From Stdlib Require Import Lia Ascii.

Local Open Scope string_scope.

(** ** Values *)

(** Python values as they reach the adapter: JSON data.  [JNull] is [None].
    A [JObj] is an insertion-ordered [dict] (its keys are distinct). *)
#[warnings="-register-all"]
Inductive json : Type :=
  | JNull
  | JBool (b : bool)
  | JNum (n : Z)
  | JStr (s : string)
  | JArr (items : list json)
  | JObj (fields : list (string * json)).

(** [d.get(key)] on an insertion-ordered dictionary. *)
Fixpoint dict_get (key : string) (d : list (string * json)) : option json :=
  match d with
  | [] => None
  | (k, v) :: rest => if String.eqb k key then Some v else dict_get key rest
  end.

(** [v is not None] *)
Definition is_not_None (v : json) : bool :=
  match v with JNull => false | _ => true end.

(** [not d] for a dictionary: it has no entry. *)
Definition dict_is_empty (d : gmap string json) : bool :=
  bool_decide (size d = 0).

(** The newline character of ['\n'.join(...)]. *)
Definition newline : string := String (Ascii.ascii_of_nat 10) EmptyString.

(** ** The argument reconciler

    Lines 128-146 of [KeboolaMCPTool._arun_with_args]. *)

(** [self.mcp_tool_schema]: the operation's input schema, a JSON Schema
    object.  Only its ['properties'] entry is read; it is absent for a tool
    that came without an input schema, and otherwise the object that maps
    each parameter name to its definition. *)
Record tool_schema : Type := ToolSchema {
  properties : option (list (string * json))
}.

(** [self.mcp_tool_schema.get('properties', {})] *)
Definition schema_properties (schema : tool_schema) : list (string * json) :=
  default [] (properties schema).

(** [k in schema_properties] *)
Definition declared (schema_props : list (string * json)) (k : string) : Prop :=
  k ∈ schema_props.*1.

#[global] Instance declared_dec schema_props k : Decision (declared schema_props k).
Proof. unfold declared. apply _. Defined.

(** [isinstance(param_def, dict) and param_def.get('type') == 'string'] *)
Definition is_string_param (param_def : json) : bool :=
  match param_def with
  | JObj fields =>
      match dict_get "type" fields with
      | Some (JStr t) => String.eqb t "string"
      | _ => false
      end
  | _ => false
  end.

(** The [for param_name, param_def in schema_properties.items()] loop with
    its [break]: the name of the first string-typed parameter. *)
Fixpoint first_string_param (schema_props : list (string * json)) : option string :=
  match schema_props with
  | [] => None
  | (param_name, param_def) :: rest =>
      if is_string_param param_def then Some param_name
      else first_string_param rest
  end.

Definition placeholder_key : string := "random_string".
Definition placeholder_value : json := JStr "dummy".

(** [{k: v for k, v in arguments.items() if k in schema_properties}] *)
Definition keep_declared (schema_props : list (string * json))
    (arguments : gmap string json) : gmap string json :=
  filter (λ kv, declared schema_props kv.1) arguments.

(** Lines 130-132:
    [if not arguments and 'random_string' in schema_properties:
       arguments = {"random_string": "dummy"}] *)
Definition fill_placeholder (schema_props : list (string * json))
    (arguments : gmap string json) : gmap string json :=
  if dict_is_empty arguments && bool_decide (declared schema_props placeholder_key)
  then {[ placeholder_key := placeholder_value ]}
  else arguments.

(** Lines 128-146: the arguments sent for the payload [arguments] when the
    schema's properties are [schema_props]. *)
Definition reconcile (schema_props : list (string * json))
    (arguments : gmap string json) : gmap string json :=
  let arguments := fill_placeholder schema_props arguments in
  (* if schema_properties: *)
  match schema_props with
  | [] => arguments
  | _ :: _ =>
      let filtered_arguments := keep_declared schema_props arguments in
      (* if not filtered_arguments and 'query' in arguments: *)
      if dict_is_empty filtered_arguments then
        match arguments !! "query" with
        | Some query =>
            match first_string_param schema_props with
            | Some param_name => <[ param_name := query ]> filtered_arguments
            | None => filtered_arguments
            end
        | None => filtered_arguments
        end
      else filtered_arguments
  end.

(** The definition of a string-typed parameter: [{"type": "string"}]. *)
Definition string_schema : json := JObj [("type", JStr "string")].

(** ** Exceptions, elapsed time and external effects *)

(** The exception classes the code names in a handler or raises itself,
    under their Python names; [Exception] stands for the root class and for
    every subclass not listed. *)
Inductive exc_class : Type :=
  | Exception
  | ValueError
  | JSONDecodeError
  | RuntimeError
  | RecursionError
  | TimeoutError.

(** [issubclass(c, handler)]: [JSONDecodeError] derives from [ValueError]
    and [RecursionError] from [RuntimeError]. *)
Definition issubclass (c handler : exc_class) : bool :=
  match handler, c with
  | Exception, _ => true
  | ValueError, (ValueError | JSONDecodeError) => true
  | JSONDecodeError, JSONDecodeError => true
  | RuntimeError, (RuntimeError | RecursionError) => true
  | RecursionError, RecursionError => true
  | TimeoutError, TimeoutError => true
  | _, _ => false
  end.

(** An exception instance: its class and [str(e)]. *)
Record exn : Type := Exn { exn_class : exc_class; exn_str : string }.

Inductive result (A : Type) : Type :=
  | Return (a : A)
  | Raise (e : exn).
Arguments Return {A} a.
Arguments Raise {A} e.

(** [StdioServerParameters(command=..., args=..., env=...)] as the code
    builds it: an environment value is what [os.getenv] gave, [None] for an
    unset variable. *)
Record StdioServerParameters : Type := ServerParams {
  command : string;
  args : list string;
  env : list (string * option string)
}.

(** [MCPToolSet(command=..., args=..., env=...)] as the crew builds it. *)
Record MCPToolSet : Type := ToolSet {
  toolset_command : string;
  toolset_args : list (option string);
  toolset_env : gmap string (option string)
}.

(** What the process does to the outside world, in order: every call that
    can start a tool-server subprocess. *)
Inductive event : Type :=
  | SpawnStdio (params : StdioServerParameters)
      (* [stdio_client(server_params)] entered *)
  | ToolSetCreated (toolset : MCPToolSet)
      (* [MCPToolSet(...)] constructed *)
  | ToolSetInitialize (toolset : MCPToolSet).
      (* [mcp_toolset.initialize()] *)

(** A computation that has run: the milliseconds it took, the events it
    caused and how it ended. *)
Record timed (A : Type) : Type := Timed {
  elapsed : N;
  events : list event;
  outcome : result A
}.
Arguments Timed {A} elapsed events outcome.
Arguments elapsed {A} t.
Arguments events {A} t.
Arguments outcome {A} t.

Definition ret {A} (a : A) : timed A := Timed 0%N [] (Return a).
Definition raise {A} (e : exn) : timed A := Timed 0%N [] (Raise e).
Definition lift {A} (r : result A) : timed A := Timed 0%N [] r.
Definition emit (ev : event) : timed unit := Timed 0%N [ev] (Return tt).

Definition bind {A B} (m : timed A) (k : A → timed B) : timed B :=
  match outcome m with
  | Return a =>
      let r := k a in
      Timed (elapsed m + elapsed r)%N (events m ++ events r)%list (outcome r)
  | Raise e => Timed (elapsed m) (events m) (Raise e)
  end.

#[global] Instance timed_ret : MRet timed := @ret.
#[global] Instance timed_bind : MBind timed := λ A B k m, bind m k.

(** [try: body  except cls1 as e: h1 e  except cls2 as e: h2 e ...]: the
    first handler whose class the exception is an instance of runs; what a
    handler raises is not offered to the handlers after it. *)
Fixpoint find_handler {A} (e : exn) (handlers : list (exc_class * (exn → timed A)))
    : option (timed A) :=
  match handlers with
  | [] => None
  | (cls, handler) :: rest =>
      if issubclass (exn_class e) cls then Some (handler e)
      else find_handler e rest
  end.

Definition try_excepts {A} (body : timed A)
    (handlers : list (exc_class * (exn → timed A))) : timed A :=
  match outcome body with
  | Return _ => body
  | Raise e =>
      match find_handler e handlers with
      | Some h =>
          Timed (elapsed body + elapsed h)%N (events body ++ events h)%list (outcome h)
      | None => body
      end
  end.

(** [try: body  except cls as e: handler e] *)
Definition try_except {A} (body : timed A) (cls : exc_class)
    (handler : exn → timed A) : timed A :=
  try_excepts body [(cls, handler)].

(** [try: body  finally: cleanup] (also the exit of an [async with]): the
    cleanup runs on every path, and an exception of its own replaces the
    body's outcome. *)
Definition try_finally {A} (body : timed A) (cleanup : timed unit) : timed A :=
  Timed (elapsed body + elapsed cleanup)%N (events body ++ events cleanup)%list
    match outcome cleanup with
    | Return _ => outcome body
    | Raise e => Raise e
    end.

(** The asyncio and executor primitives the bridge uses.  [running] tells
    whether the calling thread has a running event loop. *)

(** [asyncio.get_running_loop()] *)
Definition get_running_loop (running : bool) : timed unit :=
  if running then ret tt
  else raise (Exn RuntimeError "no running event loop").

(** [asyncio.run(coro)] *)
Definition asyncio_run {A} (running : bool) (coro : timed A) : timed A :=
  if running then
    raise (Exn RuntimeError "asyncio.run() cannot be called from a running event loop")
  else coro.

(** [run_async] on the worker thread: a new event loop runs the coroutine to
    completion and is closed in the [finally]. *)
Definition run_async {A} (coro : timed A) : timed A :=
  try_finally coro (ret tt).

(** [with ThreadPoolExecutor() as executor: future = executor.submit(work);
    return future.result(timeout=...)]: the result when the worker is done
    within the bound, [TimeoutError()] otherwise; leaving the [with] block
    waits for the worker in both cases. *)
Definition future_result {A} (timeout_ms : N) (work : timed A) : timed A :=
  if (timeout_ms <? elapsed work)%N
  then Timed (elapsed work) (events work) (Raise (Exn TimeoutError ""))
  else work.

(** [await asyncio.wait_for(coro, timeout)]: the coroutine is cancelled and
    [TimeoutError()] raised when it is not done within the bound. *)
Definition wait_for {A} (coro : timed A) (timeout_ms : N) : timed A :=
  if (timeout_ms <? elapsed coro)%N
  then Timed timeout_ms (events coro) (Raise (Exn TimeoutError ""))
  else coro.

(** ** The tool server as seen through the MCP client library *)

(** One part of [result.content]: an object with a [text] attribute, or any
    other object, of which only [str(item)] is used. *)
Inductive content_item : Type :=
  | TextPart (text : string)
  | OtherPart (item_str : string).

(** [result.content]: a list of parts, or some other object with its
    truth value and [str(...)]. *)
Inductive content_value : Type :=
  | ContentList (items : list content_item)
  | ContentOther (truthy : bool) (content_str : string).

(** The object [session.call_tool] returns: its [content] attribute, if it
    has one, and [str(result)]. *)
Record CallToolResult : Type := ToolResult {
  content : option content_value;
  result_str : string
}.

(** [mcp_tool.inputSchema] as the loader tells the cases apart. *)
Inductive input_schema : Type :=
  | NoSchema                                 (* no attribute, or a falsy one *)
  | ModelSchema (model_dump : tool_schema)   (* a Pydantic model *)
  | DictSchema (d : tool_schema)             (* already a dict *)
  | OtherSchema (as_dict : result tool_schema). (* [dict(inputSchema)] *)

(** One entry of [tools_response.tools]. *)
Record MCPTool : Type := McpTool {
  tool_name : string;
  tool_description : option string;
  inputSchema : input_schema
}.

(** A reply of the tool server: how long the caller waited and what the
    client library then returned or raised. *)
Definition reply (A : Type) : Type := (N * result A)%type.

Definition await {A} (r : reply A) : timed A := Timed r.1 [] r.2.

(** The behaviour of the subprocess and of the client library around it. *)
Record Peer : Type := MkPeer {
  peer_connect : StdioServerParameters → reply unit;
    (* entering [stdio_client(...)] and [ClientSession(read, write)] *)
  peer_initialize : reply unit;
  peer_call_tool : string → gmap string json → reply CallToolResult;
  peer_list_tools : reply (list MCPTool);
  peer_disconnect : reply unit
    (* leaving the two [async with] blocks *)
}.

(** [async with stdio_client(params) as (read, write):
       async with ClientSession(read, write) as session: body] *)
Definition with_session {A} (peer : Peer) (params : StdioServerParameters)
    (body : timed A) : timed A :=
  emit (SpawnStdio params);;
  await (peer_connect peer params);;
  try_finally body (await (peer_disconnect peer)).

(** What the Python runtime and its libraries contribute. *)
Class PyRuntime : Type := {
  json_loads : string → result json;           (* [json.loads] *)
  py_str : json → string;                      (* [str(...)] of a parsed value *)
  validate_params : StdioServerParameters → result unit
    (* the field validation a [StdioServerParameters(...)] call runs *)
}.

(** [x or alt] for an optional string: [None] and [''] are falsy. *)
Definition str_or (x : option string) (alt : string) : string :=
  match x with
  | Some s => if String.eqb s "" then alt else s
  | None => alt
  end.

(** ** The tool facade: [class KeboolaMCPTool] *)

Module KeboolaMCPTool.

Record t : Type := Tool {
  name : string;
  description : string;
  mcp_tool_name : string;
  mcp_tool_description : string;
  mcp_tool_schema : tool_schema;
  server_params : StdioServerParameters
}.

(** [str(item.text) if hasattr(item, 'text') else str(item)] *)
Definition part_str (item : content_item) : string :=
  match item with
  | TextPart text => text
  | OtherPart item_str => item_str
  end.

(** The truth value of [result.content]: a list is truthy when it has an
    element. *)
Definition content_truthy (c : content_value) : bool :=
  match c with
  | ContentList [] => false
  | ContentList (_ :: _) => true
  | ContentOther truthy _ => truthy
  end.

(** Lines 160-167: the text extracted from the result of a call. *)
Definition flatten_result (result : CallToolResult) : string :=
  match content result with
  | Some c =>
      (* hasattr(result, 'content') and result.content *)
      if content_truthy c then
        match c with
        | ContentList items => String.concat newline (map part_str items)
        | ContentOther _ content_str => content_str
        end
      else result_str result
  | None => result_str result
  end.

(** Lines 153-167: one session with the tool server for one call. *)
Definition call_in_session (self : t) (peer : Peer)
    (arguments : gmap string json) : timed string :=
  with_session peer (server_params self)
    (await (peer_initialize peer);;
     result ← await (peer_call_tool peer (mcp_tool_name self) arguments);
     mret (flatten_result result)).

(** [f"Error executing Keboola MCP tool {self.mcp_tool_name}: {str(e)}"] *)
Definition error_executing (self : t) (e : exn) : string :=
  "Error executing Keboola MCP tool " +:+ mcp_tool_name self +:+ ": " +:+ exn_str e.

(** [f"Error running MCP tool {self.mcp_tool_name}: {str(e)}"] *)
Definition error_running (self : t) (e : exn) : string :=
  "Error running MCP tool " +:+ mcp_tool_name self +:+ ": " +:+ exn_str e.

(** [async def _arun_with_args(self, arguments, run_manager)].  The debug
    printing under [DEBUG_MCP_TOOLS] writes to standard output only and is
    left out. *)
Definition _arun_with_args (self : t) (peer : Peer)
    (arguments : gmap string json) : timed string :=
  try_except
    (let arguments := reconcile (schema_properties (mcp_tool_schema self)) arguments in
     call_in_session self peer arguments)
    Exception
    (λ e, mret (error_executing self e)).

Section WithRuntime.
Context `{PyRuntime}.

(** Lines 41-58 of [_run], repeated as lines 96-113 of [_arun]: the payload
    chosen from the keyword arguments and the input string. *)
Definition choose_arguments (tool_input : string) (kwargs : gmap string json)
    : timed (gmap string json) :=
  if negb (dict_is_empty kwargs) then
    (* if kwargs: arguments = kwargs *)
    mret kwargs
  else if negb (String.eqb tool_input "") then
    (* elif tool_input: *)
    try_except
      (parsed_input ← lift (json_loads tool_input);
       match parsed_input with
       | JObj fields => mret (list_to_map fields)
       | _ => mret {[ "query" := JStr (py_str parsed_input) ]}
       end)
      JSONDecodeError
      (λ _, mret {[ "query" := JStr tool_input ]})
  else mret ∅.

(** Line 61 (and 116): [{k: v for k, v in arguments.items() if v is not None}] *)
Definition drop_None (arguments : gmap string json) : gmap string json :=
  filter (λ kv, Is_true (is_not_None kv.2)) arguments.

(** The argument payload both entry points hand to [_arun_with_args]. *)
Definition payload (tool_input : string) (kwargs : gmap string json)
    : timed (gmap string json) :=
  arguments ← choose_arguments tool_input kwargs;
  mret (drop_None arguments).

(** [def _run(self, tool_input, run_manager, **kwargs)], called on a thread
    that has a running event loop ([running = true]) or has none. *)
Definition _run (self : t) (peer : Peer) (running : bool)
    (tool_input : string) (kwargs : gmap string json) : timed string :=
  try_except
    (arguments ← payload tool_input kwargs;
     try_except
       (get_running_loop running;;
        future_result 30000%N (run_async (_arun_with_args self peer arguments)))
       RuntimeError
       (λ _, asyncio_run running (_arun_with_args self peer arguments)))
    Exception
    (λ e, mret (error_running self e)).

(** [async def _arun(self, tool_input, run_manager, **kwargs)] *)
Definition _arun (self : t) (peer : Peer)
    (tool_input : string) (kwargs : gmap string json) : timed string :=
  arguments ← payload tool_input kwargs;
  _arun_with_args self peer arguments.

End WithRuntime.
End KeboolaMCPTool.

#[global] Instance result_ret : MRet result := @Return.
#[global] Instance result_bind : MBind result := λ A B k r,
  match r with
  | Return a => k a
  | Raise e => Raise e
  end.

(** [os.getenv(key)] and [os.getenv(key, default)] on the process
    environment. *)
Definition getenv (environ : gmap string string) (key : string) : option string :=
  environ !! key.
Definition getenv_default (environ : gmap string string) (key dflt : string)
    : option string :=
  Some (default dflt (environ !! key)).

(** ** The loader: [class KeboolaMCPToolLoader] *)

Module KeboolaMCPToolLoader.

Record t : Type := Loader {
  server_params : StdioServerParameters
}.

Section WithRuntime.
Context `{PyRuntime}.

(** [def __init__(self)]: the [StdioServerParameters(...)] call validates
    its fields and then gives the parameter object. *)
Definition __init__ (environ : gmap string string) : timed t :=
  let params :=
    ServerParams "uvx"
      ["--from"; "keboola-mcp-server@1.0.0"; "keboola-mcp-server"]
      [ ("KBC_STORAGE_API_URL", getenv environ "KBC_STORAGE_API_URL");
        ("KBC_STORAGE_TOKEN", getenv environ "KBC_STORAGE_TOKEN");
        ("KBC_WORKSPACE_SCHEMA", getenv_default environ "KBC_WORKSPACE_SCHEMA" "") ] in
  lift (validate_params params);;
  mret (Loader params).

End WithRuntime.

(** Lines 225-237: the schema dictionary of a discovered tool. *)
Definition schema_of (mcp_tool : MCPTool) : result tool_schema :=
  match inputSchema mcp_tool with
  | NoSchema => Return (ToolSchema None)
  | ModelSchema model_dump => Return model_dump
  | DictSchema d => Return d
  | OtherSchema as_dict => as_dict
  end.

(** Lines 225-246: the LangChain tool built for one discovered tool. *)
Definition make_tool (self : t) (mcp_tool : MCPTool) : result KeboolaMCPTool.t :=
  schema ← schema_of mcp_tool;
  let fallback := "Keboola tool: " +:+ tool_name mcp_tool in
  mret (KeboolaMCPTool.Tool
          ("keboola_" +:+ tool_name mcp_tool)
          ("Keboola MCP Tool: " +:+ str_or (tool_description mcp_tool) fallback)
          (tool_name mcp_tool)
          (str_or (tool_description mcp_tool) fallback)
          schema
          (server_params self)).

(** The [for mcp_tool in tools_response.tools] loop: a tool whose
    construction raises is reported and skipped. *)
Definition collect_tools (self : t) (discovered : list MCPTool)
    : list KeboolaMCPTool.t :=
  foldl (λ tools mcp_tool,
           match make_tool self mcp_tool with
           | Return langchain_tool => (tools ++ [langchain_tool])%list
           | Raise _ => tools
           end) [] discovered.

(** [async def _load_tools_impl(self)] *)
Definition _load_tools_impl (self : t) (peer : Peer) : timed (list KeboolaMCPTool.t) :=
  with_session peer (server_params self)
    (await (peer_initialize peer);;
     tools_response ← await (peer_list_tools peer);
     mret (collect_tools self tools_response)).

(** [async def load_tools(self)]: [tools] stays [[]] unless the bounded
    discovery returns; both handlers only print. *)
Definition load_tools (self : t) (peer : Peer) : timed (list KeboolaMCPTool.t) :=
  try_excepts
    (wait_for (_load_tools_impl self peer) 45000%N)
    [ (TimeoutError, λ _, mret []);
      (Exception, λ _, mret []) ].

(** [def load_tools_sync(self)] *)
Definition load_tools_sync (self : t) (peer : Peer) (running : bool)
    : timed (list KeboolaMCPTool.t) :=
  try_excepts
    (get_running_loop running;;
     future_result 60000%N (run_async (load_tools self peer)))
    [ (RuntimeError, λ _, asyncio_run running (load_tools self peer));
      (Exception, λ _, mret []) ].

(** [def get_keboola_tools()] *)
Definition get_keboola_tools `{PyRuntime} (environ : gmap string string)
    (peer : Peer) (running : bool) : timed (list KeboolaMCPTool.t) :=
  loader ← __init__ environ;
  load_tools_sync loader peer running.

End KeboolaMCPToolLoader.

(** ** The crew: [class KeboolaDataAnalysisCrew] *)

Module KeboolaDataAnalysisCrew.

Record t : Type := Crew {
  mcp_toolset : MCPToolSet
}.

Definition required_vars : list string :=
  [ "OPENAI_API_KEY"; "KBC_STORAGE_TOKEN"; "KBC_WORKSPACE_SCHEMA";
    "KBC_STORAGE_API_URL" ].

(** [not os.getenv(var)]: unset, or set to the empty string. *)
Definition not_set (environ : gmap string string) (var : string) : bool :=
  match getenv environ var with
  | None => true
  | Some value => String.eqb value ""
  end.

(** [repr] of a list of strings without quotes or backslashes. *)
Definition repr_list (l : list string) : string :=
  "[" +:+ String.concat ", " (map (λ s, "'" +:+ s +:+ "'") l) +:+ "]".

(** [def validate_environment(self)] *)
Definition validate_environment (environ : gmap string string) : timed unit :=
  let missing_vars := filter (λ var, Is_true (not_set environ var)) required_vars in
  match missing_vars with
  | [] => mret tt
  | _ :: _ =>
      raise (Exn ValueError
               ("Missing environment variables: " +:+ repr_list missing_vars))
  end.

(** [def setup_mcp_toolset(self)]; its handler prints and re-raises. *)
Definition setup_mcp_toolset (environ : gmap string string) : timed MCPToolSet :=
  try_except
    (let api_url := getenv environ "KBC_STORAGE_API_URL" in
     let storage_token := getenv environ "KBC_STORAGE_TOKEN" in
     let workspace_schema := getenv environ "KBC_WORKSPACE_SCHEMA" in
     let env :=
       <[ "KBC_WORKSPACE_SCHEMA" := workspace_schema ]>
         (<[ "KBC_STORAGE_TOKEN" := storage_token ]>
            (<[ "KBC_STORAGE_API_URL" := api_url ]> (Some <$> environ))) in
     let toolset :=
       ToolSet "uvx"
         [ Some "keboola_mcp_server"; Some "--transport"; Some "stdio";
           Some "--log-level"; Some "INFO"; Some "--api-url"; api_url ]
         env in
     emit (ToolSetCreated toolset);;
     mret toolset)
    Exception
    (λ e, raise e).

(** [def __init__(self)]; the empty [agents] and [tasks] it also sets are
    not part of the model. *)
Definition __init__ (environ : gmap string string) : timed t :=
  validate_environment environ;;
  mcp_toolset ← setup_mcp_toolset environ;
  mret (Crew mcp_toolset).

(** The [description] attribute of an element of [mcp_toolset.tools]:
    absent, a string, or [None]. *)
Inductive description_attribute : Type :=
  | NotDescribed
  | Described (text : string)
  | DescribedNone.

(** An element of [mcp_toolset.tools] as [initialize_mcp] reads it: its
    [name] attribute, when it has one, and its [description]. *)
Record toolset_tool : Type := ToolsetTool {
  listed_name : option string;
  listed_description : description_attribute
}.

(** Lines 102-104, one turn of the listing loop:
    [desc = getattr(tool, 'description', 'No description')] and
    [desc[:60]], which raises [TypeError] on [None]; the line is printed. *)
Definition list_tool (tool : toolset_tool) : result unit :=
  match listed_description tool with
  | DescribedNone => Raise (Exn Exception "'NoneType' object is not subscriptable")
  | NotDescribed | Described _ => Return tt
  end.

(** Lines 101-104: [for i, tool in enumerate(tools, 1): ...] *)
Fixpoint list_tools (tools : list toolset_tool) : result unit :=
  match tools with
  | [] => Return tt
  | tool :: rest => list_tool tool;; list_tools rest
  end.

(** [def initialize_mcp(self)], given what [mcp_toolset.initialize()] does
    and the [mcp_toolset.tools] it leaves: the first ten tools are listed
    inside the same [try]; the handler prints and re-raises. *)
Definition initialize_mcp (self : t) (initialize_reply : reply (list toolset_tool))
    : timed unit :=
  try_except
    (emit (ToolSetInitialize (mcp_toolset self));;
     tools ← await initialize_reply;
     lift (list_tools (take 10 tools)))
    Exception
    (λ e, raise e).

(** The start of [main()]: the crew is constructed and [run_analysis] opens
    the MCP connection. *)
Definition construct_and_initialize (environ : gmap string string)
    (initialize_reply : reply (list toolset_tool)) : timed unit :=
  crew ← __init__ environ;
  initialize_mcp crew initialize_reply.

(** Lines 205-228, the body of the [try] block of [run_analysis], given
    what the calls into the libraries do: [mcp_toolset.initialize()], the
    construction of the agents, the tasks and the [Crew], and
    [crew.kickoff()]. *)
Definition analysis_steps {A} (self : t)
    (initialize_reply : reply (list toolset_tool))
    (create_crew : timed unit) (kickoff : timed A) : timed A :=
  initialize_mcp self initialize_reply;;
  create_crew;;
  result ← kickoff;
  mret result.

(** [def run_analysis(self, objective)], given also what
    [mcp_toolset.cleanup()] does.  The handler prints and re-raises; the
    [finally] block runs the cleanup and only prints when that raises. *)
Definition run_analysis {A} (self : t)
    (initialize_reply : reply (list toolset_tool))
    (create_crew : timed unit) (kickoff : timed A) (cleanup : timed unit) : timed A :=
  try_finally
    (try_except
       (analysis_steps self initialize_reply create_crew kickoff)
       Exception
       (λ e, raise e))
    (try_except cleanup Exception (λ _, mret tt)).

End KeboolaDataAnalysisCrew.


(** ** The LangChain agent's tool loading: [class DataAnalystAgent]

    [src/langchain/data_analyst_agent.py], the caller of
    [get_keboola_tools]. *)

Module DataAnalystAgent.

(** An element of [self.tools]: a Keboola MCP tool, or one of the tools of
    [additional_tools.py], of which the agent reads the name and the
    description. *)
Inductive tool : Type :=
  | KeboolaTool (keboola_tool : KeboolaMCPTool.t)
  | AdditionalTool (tool_name tool_description : string).

(** [tool.name] *)
Definition name (tool : tool) : string :=
  match tool with
  | KeboolaTool keboola_tool => KeboolaMCPTool.name keboola_tool
  | AdditionalTool tool_name _ => tool_name
  end.

(** [def _load_all_tools(self)], given what [get_additional_tools()] does;
    both handlers only print. *)
Definition _load_all_tools `{PyRuntime} (environ : gmap string string)
    (peer : Peer) (running : bool) (get_additional_tools : timed (list tool))
    : timed (list tool) :=
  let tools := [] in
  tools ←
    try_except
      (keboola_tools ← KeboolaMCPToolLoader.get_keboola_tools environ peer running;
       mret (tools ++ (KeboolaTool <$> keboola_tools))%list)
      Exception
      (λ _, mret tools);
  tools ←
    try_except
      (additional_tools ← get_additional_tools;
       mret (tools ++ additional_tools)%list)
      Exception
      (λ _, mret tools);
  mret tools.

End DataAnalystAgent.

(** ** The DSPy agents' tool tables

    [get_available_tools] and [get_tool_info] of [class KeboolaDataAnalyst]
    in [src/dspy/agents/data_analyst_agent.py]; [class
    KeboolaPipelineEngineer] in [pipeline_engineer_agent.py] has the same
    two methods. *)

Module KeboolaDataAnalyst.

(** An element of [self.tools]: its [name], and its [description]
    attribute when it has one. *)
Record dspy_tool : Type := DspyTool {
  name : string;
  description : option string
}.

Record t : Type := Analyst {
  tools : list dspy_tool;
  _initialized : bool
}.

(** [def get_available_tools(self)] *)
Definition get_available_tools (self : t) : list string :=
  if negb (_initialized self) then []
  else name <$> tools self.

(** [getattr(tool, 'description', 'No description available')] *)
Definition description_of (tool : dspy_tool) : json :=
  JStr (default "No description available" (description tool)).

(** The [for tool in self.tools: if tool.name == tool_name: return {...}]
    loop, with the [return {}] after it. *)
Fixpoint info_of (tools : list dspy_tool) (tool_name : string) : gmap string json :=
  match tools with
  | [] => ∅
  | tool :: rest =>
      if String.eqb (name tool) tool_name
      then {[ "name" := JStr (name tool); "description" := description_of tool ]}
      else info_of rest tool_name
  end.

(** [{tool.name: {"description": ...} for tool in self.tools}]: a later
    tool of the same name replaces an earlier one. *)
Definition info_table (tools : list dspy_tool) : gmap string json :=
  foldl (λ table tool,
           <[ name tool := JObj [("description", description_of tool)] ]> table)
        ∅ tools.

(** [def get_tool_info(self, tool_name=None)]; [None] and the empty string
    are both falsy. *)
Definition get_tool_info (self : t) (tool_name : option string) : gmap string json :=
  if negb (_initialized self) then ∅
  else
    match tool_name with
    | Some wanted =>
        if negb (String.eqb wanted "") then info_of (tools self) wanted
        else info_table (tools self)
    | None => info_table (tools self)
    end.

End KeboolaDataAnalyst.

(** ** Predicates the properties are stated with *)

(** The placeholder rule, lines 130-132, read the way the code has it: the
    hint that an operation needs the placeholder is that its schema declares
    the parameter [random_string], and an operation without real parameters
    declares nothing else. *)
Definition placeholder_hint (schema_props : list (string * json)) : Prop :=
  declared schema_props placeholder_key.
Definition no_real_parameters (schema_props : list (string * json)) : Prop :=
  ∀ k, declared schema_props k → k = placeholder_key.

(** An invoke is successful when the subprocess starts, the handshake and
    the call return, and the session closes without an exception. *)
Definition successful_invoke (self : KeboolaMCPTool.t) (peer : Peer)
    (arguments : gmap string json) (result : CallToolResult) : Prop :=
  (peer_connect peer (KeboolaMCPTool.server_params self)).2 = Return tt
  ∧ (peer_initialize peer).2 = Return tt
  ∧ (peer_call_tool peer (KeboolaMCPTool.mcp_tool_name self)
       (reconcile (schema_properties (KeboolaMCPTool.mcp_tool_schema self)) arguments)).2
    = Return result
  ∧ (peer_disconnect peer).2 = Return tt.

(** The contract of the parameter object's validation the configuration
    property relies on: an environment value that is [None] is rejected. *)
Definition rejects_None_values `{PyRuntime} : Prop :=
  ∀ params,
    Exists (λ kv, kv.2 = None) (env params) →
    ∃ e, validate_params params = Raise e.

(** The other half of the contract of the parameter object's validation:
    an environment whose values are all strings is accepted. *)
Definition accepts_string_values `{PyRuntime} : Prop :=
  ∀ params,
    Forall (λ kv, is_Some kv.2) (env params) →
    validate_params params = Return tt.

(** The value a computation returns, if it returns. *)
Definition returned {A} (r : result A) : option A :=
  match r with
  | Return a => Some a
  | Raise _ => None
  end.

(** All four variables the crew requires are set to a non-empty value. *)
Definition fully_configured (environ : gmap string string) : Prop :=
  ∀ var, var ∈ KeboolaDataAnalysisCrew.required_vars →
         ∃ value, environ !! var = Some value ∧ value ≠ "".

(** What [get_additional_tools()] and [get_keboola_tools()] contribute to
    the agent's list: their tools, or nothing when they raise. *)
Definition tools_or_none {A} (r : result (list A)) : list A :=
  match r with
  | Return tools => tools
  | Raise _ => []
  end.

(** The parameter object [KeboolaMCPToolLoader.__init__] builds, lines
    182-190, for the process environment [environ]. *)
Definition loader_parameters (environ : gmap string string) : StdioServerParameters :=
  ServerParams "uvx"
    ["--from"; "keboola-mcp-server@1.0.0"; "keboola-mcp-server"]
    [ ("KBC_STORAGE_API_URL", getenv environ "KBC_STORAGE_API_URL");
      ("KBC_STORAGE_TOKEN", getenv environ "KBC_STORAGE_TOKEN");
      ("KBC_WORKSPACE_SCHEMA", getenv_default environ "KBC_WORKSPACE_SCHEMA" "") ].

(** ** Concrete surroundings for the examples *)

(** The value of a JSON integer literal without sign: decimal digits, no
    leading zero. *)
Fixpoint digits_value (s : string) (acc : N) : option N :=
  match s with
  | EmptyString => Some acc
  | String c rest =>
      let code := Ascii.N_of_ascii c in
      if ((48 <=? code) && (code <=? 57))%N
      then digits_value rest (acc * 10 + (code - 48))%N
      else None
  end.

Definition integer_literal (s : string) : option N :=
  match s with
  | EmptyString => None
  | String "0"%char (String _ _) => None
  | _ => digits_value s 0%N
  end.

(** [json.loads] restricted to integer literals after leading blanks; any
    other text is rejected with [JSONDecodeError]. *)
Fixpoint integer_json_loads (s : string) : result json :=
  match s with
  | String " "%char rest => integer_json_loads rest
  | _ =>
      match integer_literal s with
      | Some n => Return (JNum (Z.of_N n))
      | None => Raise (Exn JSONDecodeError "Expecting value")
      end
  end.

(** [str] on the scalars the examples render. *)
Definition scalar_str (v : json) : string :=
  match v with
  | JNull => "None"
  | JBool true => "True"
  | JBool false => "False"
  | JNum n => pretty n
  | JStr s => s
  | JArr _ | JObj _ => ""
  end.

(** Field validation that accepts an environment of strings only. *)
Definition strings_only (params : StdioServerParameters) : result unit :=
  if bool_decide (Forall (λ kv, is_Some kv.2) (env params))
  then Return tt
  else Raise (Exn ValueError "Input should be a valid string").

Definition example_runtime : PyRuntime :=
  {| json_loads := integer_json_loads;
     py_str := scalar_str;
     validate_params := strings_only |}.

(** The text [{"bucket_id": "in.c-main", "limit": null}]. *)
Definition object_text : string :=
  let quote := String (Ascii.ascii_of_nat 34) EmptyString in
  "{" +:+ quote +:+ "bucket_id" +:+ quote +:+ ": " +:+ quote +:+ "in.c-main" +:+ quote
  +:+ ", " +:+ quote +:+ "limit" +:+ quote +:+ ": null}".

(** A runtime whose [json.loads] also parses [object_text]. *)
Definition object_runtime : PyRuntime :=
  {| json_loads := λ s,
       if String.eqb s object_text
       then Return (JObj [("bucket_id", JStr "in.c-main"); ("limit", JNull)])
       else integer_json_loads s;
     py_str := scalar_str;
     validate_params := strings_only |}.

(** A runtime whose [json.loads] gives up with [e] on every input. *)
Definition failing_runtime (e : exn) : PyRuntime :=
  {| json_loads := λ _, Raise e;
     py_str := scalar_str;
     validate_params := strings_only |}.

(** A process environment with every variable set. *)
Definition example_environ : gmap string string :=
  {[ "OPENAI_API_KEY" := "sk-test";
     "KBC_STORAGE_TOKEN" := "token";
     "KBC_WORKSPACE_SCHEMA" := "WORKSPACE_1";
     "KBC_STORAGE_API_URL" := "https://connection.keboola.com" ]}.

(** A process environment in which the token is set to the empty string. *)
Definition empty_token_environ : gmap string string :=
  {[ "OPENAI_API_KEY" := "sk-test";
     "KBC_STORAGE_TOKEN" := "";
     "KBC_WORKSPACE_SCHEMA" := "WORKSPACE_1";
     "KBC_STORAGE_API_URL" := "https://connection.keboola.com" ]}.

(** A tool server that answers every call at once with [result] and lists
    the tools [catalog]. *)
Definition prompt_peer (result : CallToolResult) (catalog : list MCPTool) : Peer :=
  {| peer_connect := λ _, (0%N, Return tt);
     peer_initialize := (0%N, Return tt);
     peer_call_tool := λ _ _, (0%N, Return result);
     peer_list_tools := (0%N, Return catalog);
     peer_disconnect := (0%N, Return tt) |}.

(** The same server when the call takes [delay] milliseconds. *)
Definition slow_peer (delay : N) (result : CallToolResult) : Peer :=
  {| peer_connect := λ _, (0%N, Return tt);
     peer_initialize := (0%N, Return tt);
     peer_call_tool := λ _ _, (delay, Return result);
     peer_list_tools := (0%N, Return []);
     peer_disconnect := (0%N, Return tt) |}.

(** A tool server that lists [catalog] and then fails while the session is
    closed. *)
Definition broken_close_peer (catalog : list MCPTool) : Peer :=
  {| peer_connect := λ _, (0%N, Return tt);
     peer_initialize := (0%N, Return tt);
     peer_call_tool := λ _ _, (0%N, Raise (Exn Exception "Connection closed"));
     peer_list_tools := (0%N, Return catalog);
     peer_disconnect := (0%N, Raise (Exn Exception "Connection closed")) |}.

(** A tool server whose [echo] tool answers with the text it was sent. *)
Definition echo_peer : Peer :=
  {| peer_connect := λ _, (0%N, Return tt);
     peer_initialize := (0%N, Return tt);
     peer_call_tool := λ _ arguments,
       match arguments !! "text" with
       | Some (JStr text) =>
           (0%N, Return (ToolResult (Some (ContentList [TextPart text])) ""))
       | _ => (0%N, Raise (Exn Exception "Invalid arguments"))
       end;
     peer_list_tools :=
       (0%N, Return [McpTool "echo" (Some "Echo the text")
                       (DictSchema (ToolSchema (Some [("text", string_schema)])))]);
     peer_disconnect := (0%N, Return tt) |}.

Definition example_params : StdioServerParameters :=
  ServerParams "uvx" ["--from"; "keboola-mcp-server@1.0.0"; "keboola-mcp-server"]
    [ ("KBC_STORAGE_API_URL", Some "https://connection.keboola.com");
      ("KBC_STORAGE_TOKEN", Some "token");
      ("KBC_WORKSPACE_SCHEMA", Some "") ].

(** The tool of the catalog entry [{name: "echo", schema: {text: string}}]. *)
Definition echo_tool : KeboolaMCPTool.t :=
  KeboolaMCPTool.Tool "keboola_echo" "Keboola MCP Tool: echo" "echo" "echo"
    (ToolSchema (Some [("text", string_schema)])) example_params.

(** * Properties *)

(** Closes a decidable goal on concrete data by evaluating its decision
    procedure. *)
Ltac by_evaluation :=
  match goal with
  | |- ?P => apply (bool_decide_unpack P); vm_compute; exact I
  end.

(** ** Reconciliation *)

Section Reconciliation.
Implicit Types (schema_props : list (string * json)) (arguments : gmap string json).

Lemma dict_is_empty_true arguments : dict_is_empty arguments = true ↔ arguments = ∅.
Proof. unfold dict_is_empty. rewrite bool_decide_eq_true. apply map_size_empty_iff. Qed.

Lemma dict_is_empty_false arguments : dict_is_empty arguments = false ↔ arguments ≠ ∅.
Proof.
  rewrite <- dict_is_empty_true. destruct (dict_is_empty arguments); split; congruence.
Qed.

Lemma keep_declared_lookup schema_props arguments k v :
  keep_declared schema_props arguments !! k = Some v ↔
  arguments !! k = Some v ∧ declared schema_props k.
Proof. unfold keep_declared. by rewrite map_lookup_filter_Some. Qed.

Lemma keep_declared_id schema_props arguments :
  (∀ k v, arguments !! k = Some v → declared schema_props k) →
  keep_declared schema_props arguments = arguments.
Proof. intros Hdom. apply map_filter_id. intros k v Hk. exact (Hdom k v Hk). Qed.

Lemma first_string_param_declared schema_props p :
  first_string_param schema_props = Some p → declared schema_props p.
Proof.
  unfold declared. induction schema_props as [|[k d] rest IH]; simpl; [done|].
  rewrite elem_of_cons. destruct (is_string_param d).
  - intros [= ->]. by left.
  - intros Hrest. right. by apply IH.
Qed.

(** The loop stops at the first entry whose definition is string-typed. *)
Lemma first_string_param_app pre p d post :
  Forall (λ kv, is_string_param kv.2 = false) pre →
  is_string_param d = true →
  first_string_param (pre ++ (p, d) :: post)%list = Some p.
Proof.
  intros Hpre Hd. induction Hpre as [|[k d'] pre Hk _ IH]; simpl in *.
  - by rewrite Hd.
  - by rewrite Hk.
Qed.

(** Every key of a reconciled mapping is declared, when anything is. *)
Lemma reconcile_declared schema_props arguments k v :
  schema_props ≠ [] →
  reconcile schema_props arguments !! k = Some v → declared schema_props k.
Proof.
  intros Hne. unfold reconcile.
  set (arguments' := fill_placeholder schema_props arguments).
  destruct schema_props as [|entry rest]; [done|].
  set (props := entry :: rest).
  assert (∀ k v, keep_declared props arguments' !! k = Some v → declared props k)
    as Hkeep by (intros ?? [_ ?]%keep_declared_lookup; done).
  destruct (dict_is_empty (keep_declared props arguments')) eqn:Hempty; [|by eauto].
  destruct (arguments' !! "query") as [query|]; [|by eauto].
  destruct (first_string_param props) as [param_name|] eqn:Hfirst; [|by eauto].
  apply dict_is_empty_true in Hempty. rewrite Hempty.
  rewrite insert_empty. intros [<- _]%lookup_singleton_Some.
  by apply first_string_param_declared.
Qed.

Lemma reconcile_no_schema arguments : reconcile [] arguments = arguments.
Proof.
  unfold reconcile, fill_placeholder.
  rewrite bool_decide_eq_false_2; [|unfold declared; by intros ?%elem_of_nil].
  by rewrite andb_false_r.
Qed.

End Reconciliation.

(** C1. When the schema declares at least one parameter, every key of the
    reconciled mapping is a declared parameter name (also for a key that the
    placeholder rule or the query fallback introduced); when the schema has
    no [properties] entry or an empty one, the payload is returned as it
    is. *)
Theorem reconcile_keys_subset_or_passthrough
    (schema : tool_schema) (arguments : gmap string json) :
  (schema_properties schema ≠ [] →
     dom (reconcile (schema_properties schema) arguments)
       ⊆ list_to_set (schema_properties schema).*1)
  ∧ (properties schema = None ∨ properties schema = Some [] →
     reconcile (schema_properties schema) arguments = arguments).
Proof.
  split.
  - intros Hne k [v Hk]%elem_of_dom.
    apply elem_of_list_to_set. by eapply reconcile_declared.
  - intros Hempty.
    assert (schema_properties schema = []) as ->
      by (unfold schema_properties; destruct Hempty as [-> | ->]; done).
    apply reconcile_no_schema.
Qed.

Lemma reconcile_keys_subset_or_passthrough_witness :
  dom (reconcile [("text", string_schema)] {[ "query" := JStr "hello" ]})
    ⊆ list_to_set [("text", string_schema)].*1
  ∧ reconcile [] {[ "query" := JStr "hello" ]} = {[ "query" := JStr "hello" ]}.
Proof.
  split.
  - apply (proj1 (reconcile_keys_subset_or_passthrough
                    (ToolSchema (Some [("text", string_schema)]))
                    {[ "query" := JStr "hello" ]})).
    discriminate.
  - apply (proj2 (reconcile_keys_subset_or_passthrough
                    (ToolSchema None) {[ "query" := JStr "hello" ]})).
    left. reflexivity.
Defined.

Lemma keep_declared_singleton schema_props k v :
  declared schema_props k →
  keep_declared schema_props {[ k := v ]} = {[ k := v ]}.
Proof.
  intros Hk. apply keep_declared_id.
  by intros k' v' [<- _]%lookup_singleton_Some.
Qed.

Lemma keep_declared_undeclared schema_props k v :
  ¬ declared schema_props k →
  keep_declared schema_props {[ k := v ]} = ∅.
Proof.
  intros Hk. apply map_empty. intros k'.
  destruct (keep_declared schema_props {[k := v]} !! k') as [v'|] eqn:Hlook; [|done].
  apply keep_declared_lookup in Hlook as [[<- _]%lookup_singleton_Some ?]. done.
Qed.

Lemma singleton_not_empty (k : string) (v : json) :
  dict_is_empty {[ k := v ]} = false.
Proof. apply dict_is_empty_false, insert_non_empty. Qed.

(** C2 (as the code has it). For an operation whose schema declares the
    placeholder parameter [random_string], reconciling the empty payload
    yields exactly one entry, [random_string] bound to ["dummy"]. *)
Theorem placeholder_for_empty_payload (schema_props : list (string * json)) :
  placeholder_hint schema_props →
  reconcile schema_props ∅ = {[ placeholder_key := placeholder_value ]}.
Proof.
  unfold placeholder_hint. intros Hhint. unfold reconcile, fill_placeholder.
  rewrite (proj2 (dict_is_empty_true ∅)) by done.
  rewrite bool_decide_eq_true_2 by done. simpl.
  destruct schema_props as [|entry rest]; [done|].
  rewrite keep_declared_singleton by done.
  by rewrite singleton_not_empty.
Qed.

Lemma placeholder_for_empty_payload_witness :
  reconcile [(placeholder_key, string_schema)] ∅
  = {[ placeholder_key := placeholder_value ]}.
Proof.
  apply (placeholder_for_empty_payload [(placeholder_key, string_schema)]).
  unfold placeholder_hint. by_evaluation.
Defined.

(** C2 fails for a payload that is not empty: with only [random_string]
    declared, the payload [{foo: 1}] is reconciled to the empty mapping. *)
Lemma placeholder_not_for_every_payload :
  let schema_props := [(placeholder_key, string_schema)] in
  let arguments : gmap string json := {[ "foo" := JNum 1 ]} in
  placeholder_hint schema_props
  ∧ no_real_parameters schema_props
  ∧ reconcile schema_props arguments = ∅
  ∧ reconcile schema_props arguments ≠ {[ placeholder_key := placeholder_value ]}.
Proof.
  cbv zeta. split; [|split; [|split]].
  - unfold placeholder_hint. by_evaluation.
  - intros k Hk. unfold declared in Hk. simpl in Hk.
    by apply list_elem_of_singleton in Hk.
  - vm_compute. reflexivity.
  - intros Heq. apply (f_equal (λ m, m !! placeholder_key)) in Heq.
    vm_compute in Heq. discriminate.
Qed.

(** A schema that declares nothing at all never gets the placeholder. *)
Lemma placeholder_needs_declaration : reconcile [] ∅ = ∅.
Proof. apply reconcile_no_schema. Qed.

Lemma query_fallback_at (pre post : list (string * json))
    (p : string) (param_def x : json) :
  Forall (λ kv, is_string_param kv.2 = false) pre →
  is_string_param param_def = true →
  ¬ declared (pre ++ (p, param_def) :: post)%list "query" →
  reconcile (pre ++ (p, param_def) :: post)%list {[ "query" := x ]} = {[ p := x ]}.
Proof.
  intros Hpre Hdef Hquery. unfold reconcile, fill_placeholder.
  rewrite singleton_not_empty. simpl.
  pose proof (first_string_param_app pre p param_def post Hpre Hdef) as Hfirst.
  destruct (pre ++ (p, param_def) :: post)%list as [|entry rest] eqn:Hprops.
  { by destruct pre. }
  rewrite keep_declared_undeclared by done.
  rewrite (proj2 (dict_is_empty_true ∅)) by done.
  rewrite lookup_singleton_eq, Hfirst. apply insert_empty.
Qed.

(** A schema with a string-typed parameter splits at the first one. *)
Lemma first_string_split (schema_props : list (string * json)) :
  Exists (λ kv, is_string_param kv.2 = true) schema_props →
  ∃ pre p param_def post,
    schema_props = (pre ++ (p, param_def) :: post)%list
    ∧ Forall (λ kv, is_string_param kv.2 = false) pre
    ∧ is_string_param param_def = true.
Proof.
  induction schema_props as [|[k d] rest IH]; intros Hex.
  { by apply Exists_nil in Hex. }
  destruct (is_string_param d) eqn:Hd.
  - exists [], k, d, rest. by repeat split.
  - apply Exists_cons in Hex as [Hhere | Hrest]; [simpl in Hhere; congruence|].
    destruct (IH Hrest) as (pre & p & pd & post & -> & Hpre & Hpd).
    exists ((k, d) :: pre), p, pd, post. repeat split; [|done].
    by constructor.
Qed.

(** C3. For the free-text payload [{query: x}] and a schema that declares no
    parameter named [query] but at least one string-typed parameter,
    reconciliation returns the one entry [{p: x}], where [p] is the first
    string-typed parameter in declaration order. *)
Theorem query_fallback_first_string_param
    (schema_props : list (string * json)) (x : json) :
  ¬ declared schema_props "query" →
  Exists (λ kv, is_string_param kv.2 = true) schema_props →
  ∃ pre p param_def post,
    schema_props = (pre ++ (p, param_def) :: post)%list
    ∧ Forall (λ kv, is_string_param kv.2 = false) pre
    ∧ is_string_param param_def = true
    ∧ reconcile schema_props {[ "query" := x ]} = {[ p := x ]}.
Proof.
  intros Hquery Hex.
  destruct (first_string_split _ Hex) as (pre & p & pd & post & -> & Hpre & Hpd).
  exists pre, p, pd, post. repeat split; [done..|].
  by apply query_fallback_at.
Qed.

Lemma query_fallback_first_string_param_witness :
  ∃ pre p param_def post,
    [("limit", JObj [("type", JStr "integer")]); ("q", string_schema);
     ("text", string_schema)] = (pre ++ (p, param_def) :: post)%list
    ∧ Forall (λ kv, is_string_param kv.2 = false) pre
    ∧ is_string_param param_def = true
    ∧ reconcile [("limit", JObj [("type", JStr "integer")]); ("q", string_schema);
                 ("text", string_schema)] {[ "query" := JStr "x" ]}
      = {[ p := JStr "x" ]}.
Proof.
  apply (query_fallback_first_string_param
           [("limit", JObj [("type", JStr "integer")]); ("q", string_schema);
            ("text", string_schema)] (JStr "x")).
  - by_evaluation.
  - apply Exists_cons_tl, Exists_cons_hd. reflexivity.
Defined.

(** The end-to-end example of the specification: [{query: "hello"}] against
    the schema [{text: string}]. *)
Example reconcile_echo :
  reconcile [("text", string_schema)] {[ "query" := JStr "hello" ]}
  = {[ "text" := JStr "hello" ]}.
Proof. vm_compute. reflexivity. Qed.

(** C4 (as the code has it). Reconciling a reconciled mapping again returns
    it unchanged, except when it is empty and the schema declares
    [random_string]. *)
Theorem reconcile_idempotent_unless_placeholder
    (schema_props : list (string * json)) (arguments : gmap string json) :
  ¬ (reconcile schema_props arguments = ∅ ∧ placeholder_hint schema_props) →
  reconcile schema_props (reconcile schema_props arguments)
  = reconcile schema_props arguments.
Proof.
  intros Hexcept.
  destruct schema_props as [|entry rest] eqn:Hprops.
  { by rewrite !reconcile_no_schema. }
  rewrite <- Hprops in *.
  assert (schema_props ≠ []) as Hne by (by rewrite Hprops).
  set (once := reconcile schema_props arguments) in *.
  assert (fill_placeholder schema_props once = once) as Hfill.
  { unfold fill_placeholder.
    destruct (dict_is_empty once) eqn:Hempty; [|done].
    apply dict_is_empty_true in Hempty.
    rewrite bool_decide_eq_false_2; [done|].
    intros Hhint. by apply Hexcept. }
  assert (keep_declared schema_props once = once) as Hkeep.
  { apply keep_declared_id. intros k v. by apply reconcile_declared. }
  unfold reconcile at 1. rewrite Hfill, Hkeep, Hprops.
  destruct (dict_is_empty once) eqn:Hempty; [|done].
  apply dict_is_empty_true in Hempty. by rewrite Hempty, lookup_empty.
Qed.

Lemma reconcile_idempotent_unless_placeholder_witness :
  reconcile [("text", string_schema)]
    (reconcile [("text", string_schema)] {[ "query" := JStr "hello" ]})
  = reconcile [("text", string_schema)] {[ "query" := JStr "hello" ]}.
Proof.
  apply (reconcile_idempotent_unless_placeholder
           [("text", string_schema)] {[ "query" := JStr "hello" ]}).
  intros [_ Hhint]. unfold placeholder_hint in Hhint.
  apply (bool_decide_pack _) in Hhint. vm_compute in Hhint. exact Hhint.
Defined.

(** C4 fails where the exception applies: with only [random_string]
    declared, [{foo: 1}] is reconciled to the empty mapping, and the empty
    mapping is reconciled to [{random_string: "dummy"}]. *)
Lemma reconcile_not_idempotent :
  let schema_props := [(placeholder_key, string_schema)] in
  let arguments : gmap string json := {[ "foo" := JNum 1 ]} in
  reconcile schema_props arguments = ∅
  ∧ reconcile schema_props (reconcile schema_props arguments)
    = {[ placeholder_key := placeholder_value ]}
  ∧ reconcile schema_props (reconcile schema_props arguments)
    ≠ reconcile schema_props arguments.
Proof.
  cbv zeta. split; [|split].
  - vm_compute. reflexivity.
  - vm_compute. reflexivity.
  - intros Heq. apply (f_equal (λ m, m !! placeholder_key)) in Heq.
    vm_compute in Heq. discriminate.
Qed.

(** ** The calculus of timed computations *)

Section Timed.
Context {A B : Type}.

Lemma outcome_bind (m : timed A) (k : A → timed B) :
  outcome (m ≫= k)
  = match outcome m with
    | Return a => outcome (k a)
    | Raise e => Raise e
    end.
Proof. unfold mbind, timed_bind, bind. by destruct (outcome m). Qed.

Lemma events_bind (m : timed A) (k : A → timed B) :
  events (m ≫= k)
  = match outcome m with
    | Return a => (events m ++ events (k a))%list
    | Raise e => events m
    end.
Proof. unfold mbind, timed_bind, bind. by destruct (outcome m). Qed.

Lemma elapsed_bind (m : timed A) (k : A → timed B) :
  elapsed (m ≫= k)
  = match outcome m with
    | Return a => (elapsed m + elapsed (k a))%N
    | Raise e => elapsed m
    end.
Proof. unfold mbind, timed_bind, bind. by destruct (outcome m). Qed.

Lemma issubclass_Exception (c : exc_class) : issubclass c Exception = true.
Proof. by destruct c. Qed.

(** A handler for [Exception] that returns a value leaves nothing raised. *)
Lemma outcome_try_except_Exception (body : timed A) (f : exn → A) :
  outcome (try_except body Exception (λ e, mret (f e)))
  = match outcome body with
    | Return a => Return a
    | Raise e => Return (f e)
    end.
Proof.
  unfold try_except, try_excepts.
  by destruct (outcome body) as [a|e] eqn:Hbody.
Qed.

Lemma elapsed_try_except_Exception (body : timed A) (f : exn → A) :
  elapsed (try_except body Exception (λ e, mret (f e))) = elapsed body.
Proof.
  unfold try_except, try_excepts. destruct (outcome body) as [a|e]; [done|].
  simpl. apply N.add_0_r.
Qed.

Lemma events_try_except_Exception (body : timed A) (f : exn → A) :
  events (try_except body Exception (λ e, mret (f e))) = events body.
Proof.
  unfold try_except, try_excepts. destruct (outcome body) as [a|e]; [done|].
  simpl. apply app_nil_r.
Qed.

Lemma outcome_run_async (coro : timed A) : outcome (run_async coro) = outcome coro.
Proof. done. Qed.

Lemma elapsed_run_async (coro : timed A) : elapsed (run_async coro) = elapsed coro.
Proof. unfold run_async, try_finally. simpl. apply N.add_0_r. Qed.

End Timed.

(** ** The facade *)

Section Facade.
Import KeboolaMCPTool.
Context `{PyRuntime}.
Implicit Types (self : t) (peer : Peer) (arguments kwargs : gmap string json).

(** [_arun_with_args] returns text on every path. *)
Lemma arun_with_args_outcome self peer arguments :
  outcome (_arun_with_args self peer arguments)
  = match outcome (call_in_session self peer
                     (reconcile (schema_properties (mcp_tool_schema self)) arguments)) with
    | Return text => Return text
    | Raise e => Return (error_executing self e)
    end.
Proof. unfold _arun_with_args. apply outcome_try_except_Exception. Qed.

(** The bridge of [_run] on the two kinds of calling thread. *)
Lemma bridge_outcome running (work : timed string) :
  (∃ text, outcome work = Return text) →
  outcome (try_except
             (get_running_loop running;;
              future_result 30000%N (run_async work))
             RuntimeError
             (λ _, asyncio_run running work))
  = if running && (30000 <? elapsed work)%N
    then Raise (Exn TimeoutError "")
    else outcome work.
Proof.
  intros [text Hwork]. destruct work as [el ev out]. simpl in Hwork. subst out.
  unfold try_except, try_excepts, get_running_loop, asyncio_run, future_result,
    run_async, try_finally, mbind, timed_bind, bind, ret, raise.
  destruct running; simpl.
  - rewrite N.add_0_r. by destruct (30000 <? el)%N.
  - done.
Qed.

Lemma run_outcome self peer running tool_input kwargs :
  outcome (_run self peer running tool_input kwargs)
  = match outcome (payload tool_input kwargs) with
    | Raise e => Return (error_running self e)
    | Return arguments =>
        if running && (30000 <? elapsed (_arun_with_args self peer arguments))%N
        then Return (error_running self (Exn TimeoutError ""))
        else outcome (_arun_with_args self peer arguments)
    end.
Proof.
  unfold _run. rewrite outcome_try_except_Exception, outcome_bind.
  destruct (outcome (payload tool_input kwargs)) as [arguments|e]; [|done].
  assert (∃ text, outcome (_arun_with_args self peer arguments) = Return text)
    as Hreturns.
  { rewrite arun_with_args_outcome. destruct (outcome _); eauto. }
  rewrite (bridge_outcome _ _ Hreturns).
  destruct (running && _); [done|].
  by destruct Hreturns as [text ->].
Qed.

(** C5. A synchronous call of the facade returns a string whatever the
    parser, the session or the bridge do: a failure while the payload is
    built or while the bridge waits is reported as ["Error running MCP tool
    <name>: ..."], a failure inside the session as ["Error executing Keboola
    MCP tool <name>: ..."]. *)
Theorem run_never_raises self peer running tool_input kwargs :
  ∃ text,
    outcome (_run self peer running tool_input kwargs) = Return text
    ∧ (∀ e, outcome (payload tool_input kwargs) = Raise e →
         text = error_running self e)
    ∧ (∀ arguments e,
         outcome (payload tool_input kwargs) = Return arguments →
         outcome (call_in_session self peer
                    (reconcile (schema_properties (mcp_tool_schema self)) arguments))
         = Raise e →
         text = error_executing self e
         ∨ text = error_running self (Exn TimeoutError "")).
Proof.
  rewrite run_outcome.
  destruct (outcome (payload tool_input kwargs)) as [arguments|e].
  - rewrite arun_with_args_outcome.
    destruct (running && _).
    + eexists. split; [done|]. split; [done|]. intros ?? [= <-] _. by right.
    + destruct (outcome (call_in_session _ _ _)) as [text|e] eqn:Hcall.
      * eexists. split; [done|]. split; [done|]. intros ?? [= <-]. by rewrite Hcall.
      * eexists. split; [done|]. split; [done|]. intros ?? [= <-].
        rewrite Hcall. intros [= <-]. by left.
  - eexists. split; [done|]. split; [|done]. by intros ? [= <-].
Qed.

(** *** The payload *)

Lemma drop_None_query (s : string) :
  drop_None {[ "query" := JStr s ]} = {[ "query" := JStr s ]}.
Proof. unfold drop_None. by rewrite map_filter_singleton_True. Qed.

Lemma payload_kwargs tool_input kwargs :
  kwargs ≠ ∅ → payload tool_input kwargs = mret (drop_None kwargs).
Proof.
  intros Hkw%dict_is_empty_false. unfold payload, choose_arguments.
  by rewrite Hkw.
Qed.

Lemma payload_parsed_scalar tool_input parsed :
  tool_input ≠ "" →
  json_loads tool_input = Return parsed →
  (∀ fields, parsed ≠ JObj fields) →
  payload tool_input ∅ = mret {[ "query" := JStr (py_str parsed) ]}.
Proof.
  intros Hinput%String.eqb_neq Hparsed Hscalar. unfold payload, choose_arguments.
  rewrite (proj2 (dict_is_empty_true ∅)) by done. simpl. rewrite Hinput. simpl.
  unfold try_except, try_excepts. rewrite outcome_bind. simpl. rewrite Hparsed.
  destruct parsed; try (by specialize (Hscalar fields));
    unfold mbind, timed_bind, bind, lift, mret, timed_ret, ret; simpl.
  all: by rewrite drop_None_query.
Qed.

(** C10. Keyword arguments, when there are any, are the whole payload
    (less the entries bound to [None]) and the input string is not looked
    at; without keyword arguments, an input string that [json.loads] parses
    to something other than a mapping gives the payload [{query: s}] with
    [s] the [str] of the parsed value. *)
Theorem payload_priority self peer running tool_input kwargs :
  (kwargs ≠ ∅ →
     payload tool_input kwargs = mret (drop_None kwargs)
     ∧ ∀ other_input,
         _run self peer running tool_input kwargs
         = _run self peer running other_input kwargs
         ∧ _arun self peer tool_input kwargs = _arun self peer other_input kwargs)
  ∧ (kwargs = ∅ → tool_input ≠ "" →
     ∀ parsed,
       json_loads tool_input = Return parsed →
       (∀ fields, parsed ≠ JObj fields) →
       payload tool_input kwargs = mret {[ "query" := JStr (py_str parsed) ]}).
Proof.
  split.
  - intros Hkw. split; [by apply payload_kwargs|].
    intros other_input. unfold _run, _arun.
    by rewrite !(payload_kwargs _ _ Hkw).
  - intros -> Hinput parsed Hparsed Hscalar. by apply payload_parsed_scalar.
Qed.

(** *** The text of a result *)

Lemma call_in_session_outcome self peer arguments :
  outcome (call_in_session self peer arguments)
  = match (peer_connect peer (server_params self)).2 with
    | Raise e => Raise e
    | Return _ =>
        match (peer_disconnect peer).2 with
        | Raise e => Raise e
        | Return _ =>
            match (peer_initialize peer).2 with
            | Raise e => Raise e
            | Return _ =>
                match (peer_call_tool peer (mcp_tool_name self) arguments).2 with
                | Raise e => Raise e
                | Return result => Return (flatten_result result)
                end
            end
        end
    end.
Proof.
  unfold call_in_session, with_session. rewrite !outcome_bind. simpl.
  destruct (peer_connect peer (server_params self)).2; [|done].
  destruct (peer_disconnect peer).2; [|done].
  rewrite outcome_bind. simpl.
  destruct (peer_initialize peer).2; [|done].
  rewrite outcome_bind. simpl.
  by destruct (peer_call_tool peer (mcp_tool_name self) arguments).2.
Qed.

(** C9 (as the code has it). After a successful invoke whose result carries
    a list of at least one content part, the facade returns the parts'
    texts ([str(item)] for a part without a [text] attribute), in the order
    of the list, joined with newline characters. *)
Theorem content_parts_joined self peer arguments result items :
  successful_invoke self peer arguments result →
  content result = Some (ContentList items) →
  items ≠ [] →
  outcome (_arun_with_args self peer arguments)
  = Return (String.concat newline (map part_str items)).
Proof.
  intros (Hconnect & Hinit & Hcall & Hclose) Hcontent Hitems.
  rewrite arun_with_args_outcome, call_in_session_outcome.
  rewrite Hconnect, Hclose, Hinit, Hcall.
  unfold flatten_result. rewrite Hcontent. by destruct items.
Qed.

Lemma content_parts_joined_witness :
  outcome (_arun_with_args echo_tool
             (prompt_peer (ToolResult (Some (ContentList [TextPart "a"; TextPart "b"])) "") [])
             {[ "text" := JStr "hello" ]})
  = Return ("a" +:+ newline +:+ "b").
Proof.
  apply (content_parts_joined echo_tool
           (prompt_peer (ToolResult (Some (ContentList [TextPart "a"; TextPart "b"])) "") [])
           {[ "text" := JStr "hello" ]}
           (ToolResult (Some (ContentList [TextPart "a"; TextPart "b"])) "")
           [TextPart "a"; TextPart "b"]).
  - repeat split; reflexivity.
  - reflexivity.
  - discriminate.
Defined.

(** C9 fails for a result whose content list is empty: the facade returns
    [str(result)], not the empty string that joining no parts would give. *)
Lemma empty_content_not_joined :
  let result := ToolResult (Some (ContentList [])) "meta=None content=[] isError=False" in
  let peer := prompt_peer result [] in
  let arguments : gmap string json := {[ "text" := JStr "hello" ]} in
  successful_invoke echo_tool peer arguments result
  ∧ outcome (_arun_with_args echo_tool peer arguments)
    = Return "meta=None content=[] isError=False"
  ∧ outcome (_arun_with_args echo_tool peer arguments)
    ≠ Return (String.concat newline (map part_str [])).
Proof.
  cbv zeta. split; [|split].
  - repeat split; reflexivity.
  - vm_compute. reflexivity.
  - vm_compute. discriminate.
Qed.

End Facade.

(** The end-to-end example of the specification: the facade called with the
    input ["hello"] sends [{text: "hello"}] and returns what the peer
    echoes; from a thread with a running loop as well. *)
Example facade_echo running :
  outcome (@KeboolaMCPTool._run example_runtime echo_tool echo_peer running "hello" ∅)
  = Return "hello".
Proof. destruct running; vm_compute; reflexivity. Qed.

(** A session that cannot be opened becomes text. *)
Example facade_connection_error :
  outcome (@KeboolaMCPTool._run example_runtime echo_tool
             {| peer_connect := λ _, (0%N, Raise (Exn Exception "Connection closed"));
                peer_initialize := (0%N, Return tt);
                peer_call_tool := λ _ _, (0%N, Raise (Exn Exception "unreachable"));
                peer_list_tools := (0%N, Return []);
                peer_disconnect := (0%N, Return tt) |}
             false "hello" ∅)
  = Return "Error executing Keboola MCP tool echo: Connection closed".
Proof. vm_compute. reflexivity. Qed.

Lemma payload_priority_witness :
  @KeboolaMCPTool.payload example_runtime "{}" {[ "text" := JStr "hi" ]}
  = mret (KeboolaMCPTool.drop_None {[ "text" := JStr "hi" ]})
  ∧ @KeboolaMCPTool.payload example_runtime " 42" ∅ = mret {[ "query" := JStr "42" ]}.
Proof.
  pose proof (@payload_priority example_runtime echo_tool
                (prompt_peer (ToolResult None "") []) false) as Hpriority.
  split.
  - apply (proj1 (Hpriority "{}" {[ "text" := JStr "hi" ]})).
    apply insert_non_empty.
  - refine (proj2 (Hpriority " 42" ∅) eq_refl _ (JNum 42) _ _).
    + discriminate.
    + vm_compute. reflexivity.
    + discriminate.
Defined.

(** ** The loader *)

Section Loader.
Import KeboolaMCPToolLoader.
Implicit Types (self : t) (peer : Peer).

Lemma load_tools_outcome self peer :
  outcome (load_tools self peer)
  = if (45000 <? elapsed (_load_tools_impl self peer))%N then Return []
    else match outcome (_load_tools_impl self peer) with
         | Return tools => Return tools
         | Raise _ => Return []
         end.
Proof.
  unfold load_tools, try_excepts, wait_for.
  destruct (_load_tools_impl self peer) as [took evs [tools|[cls msg]]]; simpl.
  - by destruct (45000 <? took)%N.
  - destruct (45000 <? took)%N; simpl; [done|]. by destruct cls.
Qed.

Lemma load_tools_returns self peer :
  ∃ tools, outcome (load_tools self peer) = Return tools.
Proof.
  rewrite load_tools_outcome. destruct (45000 <? _)%N; [by eexists|].
  destruct (outcome _); by eexists.
Qed.

(** In this model of [wait_for], discovery never takes the loader more than
    45 seconds. *)
Lemma load_tools_elapsed self peer : (elapsed (load_tools self peer) ≤ 45000)%N.
Proof.
  unfold load_tools, try_excepts, wait_for.
  destruct (_load_tools_impl self peer) as [took evs [tools|[cls msg]]]; simpl.
  - destruct (45000 <? took)%N eqn:Hlate; simpl; [lia|].
    by apply N.ltb_ge in Hlate.
  - destruct (45000 <? took)%N eqn:Hlate; simpl; [lia|].
    apply N.ltb_ge in Hlate. destruct cls; simpl; lia.
Qed.

Lemma load_tools_sync_outcome self peer running :
  outcome (load_tools_sync self peer running)
  = if running && (60000 <? elapsed (load_tools self peer))%N then Return []
    else outcome (load_tools self peer).
Proof.
  destruct (load_tools_returns self peer) as [tools Htools].
  unfold load_tools_sync.
  destruct (load_tools self peer) as [took evs out]. simpl in *. subst out.
  unfold try_excepts, get_running_loop, asyncio_run,
    future_result, run_async, try_finally, mbind, timed_bind, bind, ret, raise.
  destruct running; simpl; [|done].
  rewrite N.add_0_r. by destruct (60000 <? took)%N.
Qed.

(** C8. When the bounded discovery runs past its 45 seconds or raises, the
    loader returns the empty list, whatever had been collected by then. *)
Theorem discovery_all_or_nothing self peer :
  (45000 < elapsed (_load_tools_impl self peer))%N
  ∨ (∃ e, outcome (_load_tools_impl self peer) = Raise e) →
  outcome (load_tools self peer) = Return []
  ∧ ∀ running, outcome (load_tools_sync self peer running) = Return [].
Proof.
  intros Hfails.
  assert (outcome (load_tools self peer) = Return []) as Hempty.
  { rewrite load_tools_outcome.
    destruct (45000 <? elapsed (_load_tools_impl self peer))%N eqn:Hlate; [done|].
    destruct Hfails as [Hlate' | [e He]].
    - apply N.ltb_ge in Hlate. lia.
    - by rewrite He. }
  split; [done|]. intros running. rewrite load_tools_sync_outcome.
  by destruct (running && _).
Qed.

Lemma discovery_all_or_nothing_witness :
  let peer := broken_close_peer [McpTool "echo" None NoSchema;
                                 McpTool "list_buckets" None NoSchema] in
  outcome (load_tools (Loader example_params) peer) = Return []
  ∧ ∀ running, outcome (load_tools_sync (Loader example_params) peer running) = Return [].
Proof.
  apply (discovery_all_or_nothing (Loader example_params)
           (broken_close_peer [McpTool "echo" None NoSchema;
                               McpTool "list_buckets" None NoSchema])).
  right. eexists. vm_compute. reflexivity.
Defined.

(** Discovery that succeeds gives one tool per catalog entry, under the
    prefixed name. *)
Example load_tools_echo :
  outcome (load_tools (Loader example_params) echo_peer)
  = Return [KeboolaMCPTool.Tool "keboola_echo" "Keboola MCP Tool: Echo the text"
              "echo" "Echo the text"
              (ToolSchema (Some [("text", string_schema)])) example_params].
Proof. vm_compute. reflexivity. Qed.

End Loader.

(** ** The execution bridge *)

(** C6 (as the code has it). The bridge gives the same result from a thread
    without a running event loop (direct run) and from a thread with one
    (worker thread with a loop of its own), provided the operation is done
    within the bound the worker path waits for: 30 seconds for a tool call,
    60 seconds for discovery. *)
Theorem dispatch_paths_agree_within_bound `{PyRuntime}
    (self : KeboolaMCPTool.t) (loader : KeboolaMCPToolLoader.t) (peer : Peer)
    (tool_input : string) (kwargs : gmap string json) :
  ((∀ arguments,
      outcome (KeboolaMCPTool.payload tool_input kwargs) = Return arguments →
      (elapsed (KeboolaMCPTool._arun_with_args self peer arguments) ≤ 30000)%N) →
   outcome (KeboolaMCPTool._run self peer false tool_input kwargs)
   = outcome (KeboolaMCPTool._run self peer true tool_input kwargs))
  ∧ ((elapsed (KeboolaMCPToolLoader.load_tools loader peer) ≤ 60000)%N →
     outcome (KeboolaMCPToolLoader.load_tools_sync loader peer false)
     = outcome (KeboolaMCPToolLoader.load_tools_sync loader peer true)).
Proof.
  split.
  - intros Hbound. rewrite !run_outcome.
    destruct (outcome (KeboolaMCPTool.payload tool_input kwargs))
      as [arguments|e]; [|done].
    specialize (Hbound arguments eq_refl). simpl.
    by rewrite (proj2 (N.ltb_ge _ _) Hbound).
  - intros Hbound. rewrite !load_tools_sync_outcome. simpl.
    by rewrite (proj2 (N.ltb_ge _ _) Hbound).
Qed.

Lemma dispatch_paths_agree_within_bound_witness :
  let peer := slow_peer 2000 (ToolResult (Some (ContentList [TextPart "hello"])) "") in
  (outcome (@KeboolaMCPTool._run example_runtime echo_tool peer false "hello" ∅)
   = outcome (@KeboolaMCPTool._run example_runtime echo_tool peer true "hello" ∅))
  ∧ (outcome (KeboolaMCPToolLoader.load_tools_sync
                (KeboolaMCPToolLoader.Loader example_params) peer false)
     = outcome (KeboolaMCPToolLoader.load_tools_sync
                  (KeboolaMCPToolLoader.Loader example_params) peer true)).
Proof.
  pose proof (@dispatch_paths_agree_within_bound example_runtime echo_tool
                (KeboolaMCPToolLoader.Loader example_params)
                (slow_peer 2000 (ToolResult (Some (ContentList [TextPart "hello"])) ""))
                "hello" ∅) as [Hrun Hload].
  split.
  - apply Hrun. intros arguments Hpayload. vm_compute in Hpayload.
    injection Hpayload as <-. vm_compute. discriminate.
  - apply Hload. vm_compute. discriminate.
Defined.

(** C6 fails for a call that takes longer: after 31 seconds the direct path
    returns the tool's text, the worker path the time-out diagnostic. *)
Lemma dispatch_paths_differ_on_slow_call :
  let peer := slow_peer 31000 (ToolResult (Some (ContentList [TextPart "hello"])) "") in
  outcome (@KeboolaMCPTool._run example_runtime echo_tool peer false "hello" ∅)
  = Return "hello"
  ∧ outcome (@KeboolaMCPTool._run example_runtime echo_tool peer true "hello" ∅)
    = Return "Error running MCP tool echo: "
  ∧ outcome (@KeboolaMCPTool._run example_runtime echo_tool peer false "hello" ∅)
    ≠ outcome (@KeboolaMCPTool._run example_runtime echo_tool peer true "hello" ∅).
Proof.
  cbv zeta. split; [|split].
  - vm_compute. reflexivity.
  - vm_compute. reflexivity.
  - vm_compute. discriminate.
Qed.

(** ** Configuration *)

Section Configuration.
Context `{PyRuntime}.
Implicit Types (environ : gmap string string).

Lemma validate_environment_missing environ (var : string) :
  var ∈ KeboolaDataAnalysisCrew.required_vars →
  KeboolaDataAnalysisCrew.not_set environ var = true →
  ∃ message,
    KeboolaDataAnalysisCrew.validate_environment environ
    = raise (Exn ValueError message).
Proof.
  intros Hvar Hmissing. unfold KeboolaDataAnalysisCrew.validate_environment.
  destruct (filter _ KeboolaDataAnalysisCrew.required_vars)
    as [|first others] eqn:Hfilter; [|by eexists].
  assert (var ∈ filter (λ var, Is_true (KeboolaDataAnalysisCrew.not_set environ var))
                  KeboolaDataAnalysisCrew.required_vars) as Hin.
  { apply list_elem_of_filter. split; [by rewrite Hmissing | done]. }
  rewrite Hfilter in Hin. by apply elem_of_nil in Hin.
Qed.

End Configuration.

Lemma example_runtime_rejects_None : @rejects_None_values example_runtime.
Proof.
  intros params Hnone. exists (Exn ValueError "Input should be a valid string").
  simpl. unfold strings_only. rewrite bool_decide_eq_false_2; [done|].
  intros Hall. apply Exists_exists in Hnone as ([k v] & Hin & Hv).
  simpl in Hv. subst v.
  rewrite Forall_forall in Hall. by destruct (Hall _ Hin).
Qed.

(** * Further properties of the code *)

(** ** Reconciliation beyond the single-entry payload *)

Section ReconciliationCases.
Implicit Types (schema_props : list (string * json)) (arguments : gmap string json).

Lemma fill_placeholder_nonempty schema_props arguments :
  arguments ≠ ∅ → fill_placeholder schema_props arguments = arguments.
Proof.
  intros Hne%dict_is_empty_false. unfold fill_placeholder. by rewrite Hne.
Qed.

Lemma keep_declared_empty schema_props arguments :
  (∀ k, is_Some (arguments !! k) → ¬ declared schema_props k) →
  keep_declared schema_props arguments = ∅.
Proof.
  intros Hnone. apply map_empty. intros k.
  destruct (keep_declared schema_props arguments !! k) as [v|] eqn:Hk; [|done].
  apply keep_declared_lookup in Hk as [Hk Hdecl]. by destruct (Hnone k).
Qed.

(** X1. As soon as one key of the payload is declared in the schema, the
    arguments sent are exactly the payload's entries under declared keys,
    values unchanged: undeclared keys are dropped and neither the
    placeholder nor the query fallback applies. *)
Theorem reconcile_keeps_declared_entries schema_props arguments k0 v0 :
  arguments !! k0 = Some v0 →
  declared schema_props k0 →
  reconcile schema_props arguments = keep_declared schema_props arguments
  ∧ ∀ k v, reconcile schema_props arguments !! k = Some v
           ↔ arguments !! k = Some v ∧ declared schema_props k.
Proof.
  intros Hk0 Hdecl.
  assert (reconcile schema_props arguments = keep_declared schema_props arguments)
    as Heq.
  { unfold reconcile. rewrite fill_placeholder_nonempty.
    - destruct schema_props as [|entry rest].
      { unfold declared in Hdecl. by apply elem_of_nil in Hdecl. }
      rewrite (proj2 (dict_is_empty_false _)); [done|].
      intros Hempty.
      assert (keep_declared (entry :: rest) arguments !! k0 = Some v0) as Hin
        by (by apply keep_declared_lookup).
      by rewrite Hempty, lookup_empty in Hin.
    - intros ->. by rewrite lookup_empty in Hk0. }
  split; [done|]. intros k v. rewrite Heq. apply keep_declared_lookup.
Qed.

Lemma reconcile_keeps_declared_entries_witness :
  reconcile [("bucket_id", string_schema); ("limit", JObj [("type", JStr "integer")])]
    {[ "bucket_id" := JStr "in.c-main"; "verbose" := JBool true ]}
  = keep_declared
      [("bucket_id", string_schema); ("limit", JObj [("type", JStr "integer")])]
      {[ "bucket_id" := JStr "in.c-main"; "verbose" := JBool true ]}.
Proof.
  apply (reconcile_keeps_declared_entries
           [("bucket_id", string_schema); ("limit", JObj [("type", JStr "integer")])]
           {[ "bucket_id" := JStr "in.c-main"; "verbose" := JBool true ]}
           "bucket_id" (JStr "in.c-main")).
  - vm_compute. reflexivity.
  - by_evaluation.
Defined.

(** X2. The query fallback for any payload: when no key of the payload is
    declared, the payload has a [query] entry and the schema has a
    string-typed parameter, the arguments sent are the one entry that binds
    the value of [query] to the first string-typed parameter; every other
    entry of the payload is dropped. *)
Theorem query_fallback_any_payload schema_props arguments (query : json) :
  (∀ k, is_Some (arguments !! k) → ¬ declared schema_props k) →
  arguments !! "query" = Some query →
  Exists (λ kv, is_string_param kv.2 = true) schema_props →
  ∃ pre p param_def post,
    schema_props = (pre ++ (p, param_def) :: post)%list
    ∧ Forall (λ kv, is_string_param kv.2 = false) pre
    ∧ is_string_param param_def = true
    ∧ reconcile schema_props arguments = {[ p := query ]}.
Proof.
  intros Hnone Hquery Hex.
  destruct (first_string_split _ Hex) as (pre & p & pd & post & Hsplit & Hpre & Hpd).
  exists pre, p, pd, post. repeat split; [done..|].
  pose proof (first_string_param_app pre p pd post Hpre Hpd) as Hfirst.
  rewrite <- Hsplit in Hfirst.
  unfold reconcile. rewrite fill_placeholder_nonempty
    by (intros ->; by rewrite lookup_empty in Hquery).
  destruct schema_props as [|entry rest]; [by destruct pre|].
  rewrite keep_declared_empty by done.
  rewrite (proj2 (dict_is_empty_true ∅)) by done.
  rewrite Hquery, Hfirst. apply insert_empty.
Qed.

Lemma query_fallback_any_payload_witness :
  ∃ pre p param_def post,
    [("limit", JObj [("type", JStr "integer")]); ("sql", string_schema)]
    = (pre ++ (p, param_def) :: post)%list
    ∧ Forall (λ kv, is_string_param kv.2 = false) pre
    ∧ is_string_param param_def = true
    ∧ reconcile [("limit", JObj [("type", JStr "integer")]); ("sql", string_schema)]
        {[ "query" := JStr "select 1"; "format" := JStr "csv" ]}
      = {[ p := JStr "select 1" ]}.
Proof.
  apply (query_fallback_any_payload
           [("limit", JObj [("type", JStr "integer")]); ("sql", string_schema)]
           {[ "query" := JStr "select 1"; "format" := JStr "csv" ]}
           (JStr "select 1")).
  - intros k [v Hk].
    apply lookup_insert_Some in Hk as [[<- _] | [_ Hk]]; [by_evaluation|].
    apply lookup_singleton_Some in Hk as [<- _]. by_evaluation.
  - vm_compute. reflexivity.
  - apply Exists_cons_tl, Exists_cons_hd. reflexivity.
Defined.

(** X3. A payload none of whose keys is declared, and that has no [query]
    entry or meets a schema without string-typed parameter, is reconciled to
    the empty mapping: the tool is called without arguments. *)
Theorem reconcile_drops_everything schema_props arguments :
  schema_props ≠ [] →
  arguments ≠ ∅ →
  (∀ k, is_Some (arguments !! k) → ¬ declared schema_props k) →
  arguments !! "query" = None
  ∨ Forall (λ kv, is_string_param kv.2 = false) schema_props →
  reconcile schema_props arguments = ∅.
Proof.
  intros Hprops Hargs Hnone Hfallback.
  unfold reconcile. rewrite fill_placeholder_nonempty by done.
  destruct schema_props as [|entry rest] eqn:Heq; [done|]. rewrite <- Heq in *.
  rewrite keep_declared_empty by done.
  rewrite (proj2 (dict_is_empty_true ∅)) by done.
  destruct Hfallback as [-> | Hnostring]; [done|].
  destruct (arguments !! "query"); [|done].
  assert (first_string_param schema_props = None) as ->; [|done].
  clear -Hnostring. induction Hnostring as [|[k d] rest Hd _ IH]; [done|].
  simpl in *. by rewrite Hd.
Qed.

Lemma reconcile_drops_everything_witness :
  reconcile [("limit", JObj [("type", JStr "integer")])] {[ "query" := JStr "x" ]} = ∅.
Proof.
  apply (reconcile_drops_everything
           [("limit", JObj [("type", JStr "integer")])] {[ "query" := JStr "x" ]}).
  - discriminate.
  - apply insert_non_empty.
  - intros k [v Hk]. apply lookup_singleton_Some in Hk as [<- _]. by_evaluation.
  - right. repeat constructor.
Defined.

End ReconciliationCases.

(** ** The payload and the facade, case by case *)

Section FacadeCases.
Import KeboolaMCPTool.
Context `{PyRuntime}.
Implicit Types (self : t) (peer : Peer) (arguments kwargs : gmap string json).

Lemma is_not_None_spec (v : json) : Is_true (is_not_None v) ↔ v ≠ JNull.
Proof. destruct v; simpl; split; try done; intros Hv; by destruct Hv. Qed.

Lemma drop_None_lookup arguments k v :
  drop_None arguments !! k = Some v ↔ arguments !! k = Some v ∧ v ≠ JNull.
Proof.
  unfold drop_None. rewrite map_lookup_filter_Some. simpl.
  by rewrite is_not_None_spec.
Qed.

(** Building the payload takes no time and starts nothing. *)
Lemma payload_quiet tool_input kwargs :
  events (payload tool_input kwargs) = [] ∧ elapsed (payload tool_input kwargs) = 0%N.
Proof.
  unfold payload, choose_arguments.
  destruct (negb (dict_is_empty kwargs)); [done|].
  destruct (negb (tool_input =? "")); [|done].
  unfold try_except, try_excepts, mbind, timed_bind, bind, lift, mret, timed_ret, ret.
  simpl. destruct (json_loads tool_input) as [parsed|[cls msg]]; simpl.
  - by destruct parsed.
  - by destruct cls.
Qed.

Lemma payload_outcome tool_input kwargs :
  outcome (payload tool_input kwargs)
  = match outcome (choose_arguments tool_input kwargs) with
    | Return arguments => Return (drop_None arguments)
    | Raise e => Raise e
    end.
Proof. unfold payload. rewrite outcome_bind. by destruct (outcome _). Qed.

(** X4. Without keyword arguments, an input string that [json.loads]
    rejects with [JSONDecodeError] becomes the payload [{query: <the raw
    input>}]. *)
Theorem payload_free_text tool_input (e : exn) :
  tool_input ≠ "" →
  json_loads tool_input = Raise e →
  issubclass (exn_class e) JSONDecodeError = true →
  payload tool_input ∅ = mret {[ "query" := JStr tool_input ]}.
Proof.
  intros Hinput%String.eqb_neq Hloads Hclass. unfold payload, choose_arguments.
  rewrite (proj2 (dict_is_empty_true ∅)) by done. simpl. rewrite Hinput. simpl.
  unfold try_except, try_excepts, mbind, timed_bind, bind, lift, mret, timed_ret, ret.
  simpl. rewrite Hloads.
  destruct e as [[] message]; try discriminate Hclass. simpl.
  by rewrite drop_None_query.
Qed.

(** X5. Without keyword arguments, an input string that parses to a JSON
    object becomes the payload made of that object's entries, less the ones
    bound to [null]. *)
Theorem payload_json_object tool_input (fields : list (string * json)) :
  tool_input ≠ "" →
  json_loads tool_input = Return (JObj fields) →
  NoDup fields.*1 →
  ∃ arguments,
    payload tool_input ∅ = mret arguments
    ∧ ∀ k v, arguments !! k = Some v ↔ (k, v) ∈ fields ∧ v ≠ JNull.
Proof.
  intros Hinput%String.eqb_neq Hloads Hnodup.
  exists (drop_None (list_to_map fields)). split.
  - unfold payload, choose_arguments.
    rewrite (proj2 (dict_is_empty_true ∅)) by done. simpl. rewrite Hinput. simpl.
    unfold try_except, try_excepts, mbind, timed_bind, bind, lift, mret, timed_ret, ret.
    simpl. by rewrite Hloads.
  - intros k v. rewrite drop_None_lookup.
    by rewrite <- (elem_of_list_to_map (M := gmap string)).
Qed.

(** X6. No payload handed to [_arun_with_args] binds a key to [None],
    whichever way it was built. *)
Theorem payload_has_no_None tool_input kwargs arguments :
  outcome (payload tool_input kwargs) = Return arguments →
  ∀ k, arguments !! k ≠ Some JNull.
Proof.
  rewrite payload_outcome.
  destruct (outcome (choose_arguments tool_input kwargs)) as [chosen|e]; [|done].
  intros [= <-] k Hk. apply drop_None_lookup in Hk as [_ Hv]. by apply Hv.
Qed.

(** X7. An exception of [json.loads] other than [JSONDecodeError] is not
    taken for free text: [_arun] raises it, [_run] returns the ["Error
    running MCP tool"] text for it, and neither starts the tool server. *)
Theorem parser_failure_not_free_text self peer running tool_input (e : exn) :
  tool_input ≠ "" →
  json_loads tool_input = Raise e →
  issubclass (exn_class e) JSONDecodeError = false →
  outcome (_arun self peer tool_input ∅) = Raise e
  ∧ events (_arun self peer tool_input ∅) = []
  ∧ outcome (_run self peer running tool_input ∅) = Return (error_running self e)
  ∧ events (_run self peer running tool_input ∅) = [].
Proof.
  intros Hinput%String.eqb_neq Hloads Hclass.
  assert (payload tool_input ∅ = raise e) as Hpayload.
  { unfold payload, choose_arguments.
    rewrite (proj2 (dict_is_empty_true ∅)) by done. simpl. rewrite Hinput. simpl.
    unfold try_except, try_excepts, mbind, timed_bind, bind, lift, mret, timed_ret, ret.
    simpl. rewrite Hloads.
    by destruct e as [[] message]; try discriminate Hclass. }
  unfold _arun, _run. rewrite Hpayload. by repeat split.
Qed.

(** X8. Called from a thread without event loop, [_run] returns what
    [_arun] returns for the same input, and the error text where [_arun]
    raises. *)
Theorem run_is_arun_flattened self peer tool_input kwargs :
  outcome (_run self peer false tool_input kwargs)
  = match outcome (_arun self peer tool_input kwargs) with
    | Return text => Return text
    | Raise e => Return (error_running self e)
    end.
Proof.
  rewrite run_outcome. unfold _arun. rewrite outcome_bind.
  destruct (outcome (payload tool_input kwargs)) as [arguments|e]; [|done].
  simpl. rewrite arun_with_args_outcome. by destruct (outcome _).
Qed.

Lemma call_in_session_events self peer arguments :
  events (call_in_session self peer arguments) = [SpawnStdio (server_params self)].
Proof.
  unfold call_in_session, with_session, try_finally, await, emit,
    mbind, timed_bind, bind, mret, timed_ret, ret. simpl.
  destruct (peer_connect peer (server_params self)).2; simpl; [|done].
  destruct (peer_initialize peer).2; simpl; [|done].
  by destruct (peer_call_tool peer (mcp_tool_name self) arguments).2.
Qed.

Lemma arun_with_args_events self peer arguments :
  events (_arun_with_args self peer arguments) = [SpawnStdio (server_params self)].
Proof.
  unfold _arun_with_args. rewrite events_try_except_Exception.
  apply call_in_session_events.
Qed.

Lemma bridge_events running (work : timed string) :
  (∃ text, outcome work = Return text) →
  events (try_except
            (get_running_loop running;;
             future_result 30000%N (run_async work))
            RuntimeError
            (λ _, asyncio_run running work))
  = events work.
Proof.
  intros [text Hwork]. destruct work as [took evs out]. simpl in Hwork. subst out.
  unfold try_except, try_excepts, get_running_loop, asyncio_run, future_result,
    run_async, try_finally, mbind, timed_bind, bind, mret, timed_ret, ret, raise.
  destruct running; simpl; [|done].
  rewrite N.add_0_r. destruct (30000 <? took)%N; simpl; by rewrite ?app_nil_r.
Qed.

(** X9. One call, one subprocess: [_arun_with_args] enters [stdio_client]
    exactly once, with the tool's own parameters, and so does [_run] on
    either kind of thread once the payload is built, also when the call
    fails or times out. *)
Theorem one_subprocess_per_call self peer running tool_input kwargs arguments :
  outcome (payload tool_input kwargs) = Return arguments →
  events (_arun_with_args self peer arguments) = [SpawnStdio (server_params self)]
  ∧ events (_run self peer running tool_input kwargs)
    = [SpawnStdio (server_params self)].
Proof.
  intros Hpayload. split; [apply arun_with_args_events|].
  destruct (payload_quiet tool_input kwargs) as [Hevents _].
  unfold _run. rewrite events_try_except_Exception, events_bind, Hpayload, Hevents.
  simpl. rewrite bridge_events; [apply arun_with_args_events|].
  rewrite arun_with_args_outcome.
  destruct (outcome (call_in_session _ _ _)); by eexists.
Qed.

Lemma reconcile_empty_payload schema_props :
  declared schema_props placeholder_key →
  reconcile schema_props ∅ = {[ placeholder_key := placeholder_value ]}.
Proof.
  intros Hdeclared. unfold reconcile, fill_placeholder.
  rewrite (proj2 (dict_is_empty_true ∅)) by done.
  rewrite bool_decide_eq_true_2 by done. simpl.
  destruct schema_props as [|entry rest].
  { unfold declared in Hdeclared. by apply elem_of_nil in Hdeclared. }
  rewrite keep_declared_singleton by done.
  by rewrite singleton_not_empty.
Qed.

(** X10. A call without arguments to a tool whose schema declares
    [random_string] runs the session with [{random_string: "dummy"}]: the
    facade returns that session's text, or the error text for its
    exception. *)
Theorem empty_call_sends_placeholder self peer tool_input kwargs :
  outcome (payload tool_input kwargs) = Return ∅ →
  declared (schema_properties (mcp_tool_schema self)) placeholder_key →
  outcome (_arun self peer tool_input kwargs)
  = match outcome (call_in_session self peer
                     {[ placeholder_key := placeholder_value ]}) with
    | Return text => Return text
    | Raise e => Return (error_executing self e)
    end.
Proof.
  intros Hpayload Hdeclared. unfold _arun. rewrite outcome_bind, Hpayload.
  rewrite arun_with_args_outcome.
  by rewrite (reconcile_empty_payload _ Hdeclared).
Qed.

End FacadeCases.

Lemma payload_free_text_witness :
  @KeboolaMCPTool.payload example_runtime "list my buckets" ∅
  = mret {[ "query" := JStr "list my buckets" ]}.
Proof.
  apply (@payload_free_text example_runtime "list my buckets"
           (Exn JSONDecodeError "Expecting value")).
  - discriminate.
  - vm_compute. reflexivity.
  - reflexivity.
Defined.

Lemma payload_json_object_witness :
  ∃ arguments,
    @KeboolaMCPTool.payload object_runtime object_text ∅ = mret arguments
    ∧ ∀ k v, arguments !! k = Some v
             ↔ (k, v) ∈ [("bucket_id", JStr "in.c-main"); ("limit", JNull)] ∧ v ≠ JNull.
Proof.
  apply (@payload_json_object object_runtime object_text
           [("bucket_id", JStr "in.c-main"); ("limit", JNull)]).
  - discriminate.
  - reflexivity.
  - by_evaluation.
Defined.

Lemma payload_has_no_None_witness :
  (∅ : gmap string json) !! "bucket_id" ≠ Some JNull.
Proof.
  apply (@payload_has_no_None example_runtime "" {[ "bucket_id" := JNull ]} ∅).
  vm_compute. reflexivity.
Defined.

Lemma parser_failure_not_free_text_witness :
  let e := Exn RecursionError "maximum recursion depth exceeded" in
  let peer := prompt_peer (ToolResult None "") [] in
  outcome (@KeboolaMCPTool._arun (failing_runtime e) echo_tool peer "[[[[" ∅) = Raise e
  ∧ events (@KeboolaMCPTool._arun (failing_runtime e) echo_tool peer "[[[[" ∅) = []
  ∧ outcome (@KeboolaMCPTool._run (failing_runtime e) echo_tool peer true "[[[[" ∅)
    = Return (KeboolaMCPTool.error_running echo_tool e)
  ∧ events (@KeboolaMCPTool._run (failing_runtime e) echo_tool peer true "[[[[" ∅) = [].
Proof.
  apply (@parser_failure_not_free_text
           (failing_runtime (Exn RecursionError "maximum recursion depth exceeded"))
           echo_tool (prompt_peer (ToolResult None "") []) true "[[[["
           (Exn RecursionError "maximum recursion depth exceeded")).
  - discriminate.
  - reflexivity.
  - reflexivity.
Defined.

Lemma one_subprocess_per_call_witness :
  let peer := slow_peer 31000 (ToolResult (Some (ContentList [TextPart "hello"])) "") in
  events (KeboolaMCPTool._arun_with_args echo_tool peer {[ "query" := JStr "hello" ]})
  = [SpawnStdio example_params]
  ∧ events (@KeboolaMCPTool._run example_runtime echo_tool peer true "hello" ∅)
    = [SpawnStdio example_params].
Proof.
  apply (@one_subprocess_per_call example_runtime echo_tool
           (slow_peer 31000 (ToolResult (Some (ContentList [TextPart "hello"])) ""))
           true "hello" ∅ {[ "query" := JStr "hello" ]}).
  vm_compute. reflexivity.
Defined.

Lemma empty_call_sends_placeholder_witness :
  let self := KeboolaMCPTool.Tool "keboola_get_project_info" "Keboola MCP Tool: info"
                "get_project_info" "info"
                (ToolSchema (Some [(placeholder_key, string_schema)])) example_params in
  let peer := prompt_peer (ToolResult (Some (ContentList [TextPart "ok"])) "") [] in
  outcome (@KeboolaMCPTool._arun example_runtime self peer "" {[ "limit" := JNull ]})
  = match outcome (KeboolaMCPTool.call_in_session self peer
                     {[ placeholder_key := placeholder_value ]}) with
    | Return text => Return text
    | Raise e => Return (KeboolaMCPTool.error_executing self e)
    end.
Proof.
  apply (@empty_call_sends_placeholder example_runtime
           (KeboolaMCPTool.Tool "keboola_get_project_info" "Keboola MCP Tool: info"
              "get_project_info" "info"
              (ToolSchema (Some [(placeholder_key, string_schema)])) example_params)
           (prompt_peer (ToolResult (Some (ContentList [TextPart "ok"])) "") [])
           "" {[ "limit" := JNull ]}).
  - vm_compute. reflexivity.
  - by_evaluation.
Defined.

(** ** Failures around the call *)

Section SessionFailures.
Import KeboolaMCPTool.
Implicit Types (self : t) (peer : Peer) (arguments : gmap string json).

(** X11. When the session cannot be opened the facade reports that
    exception; and when the session opens but raises [e] while it is
    closed, the facade reports [e] whatever the call itself returned or
    raised: a result obtained before a failing close is lost. *)
Theorem close_failure_masks_result self peer arguments (e : exn) :
  ((peer_connect peer (server_params self)).2 = Raise e →
     outcome (_arun_with_args self peer arguments) = Return (error_executing self e))
  ∧ ((peer_connect peer (server_params self)).2 = Return tt →
     (peer_disconnect peer).2 = Raise e →
     outcome (_arun_with_args self peer arguments) = Return (error_executing self e)).
Proof.
  split.
  - intros Hconnect. rewrite arun_with_args_outcome, call_in_session_outcome.
    by rewrite Hconnect.
  - intros Hconnect Hclose. rewrite arun_with_args_outcome, call_in_session_outcome.
    by rewrite Hconnect, Hclose.
Qed.

Lemma close_failure_masks_result_witness :
  let e := Exn Exception "Connection closed" in
  outcome (_arun_with_args echo_tool (broken_close_peer []) {[ "text" := JStr "hello" ]})
  = Return (error_executing echo_tool e).
Proof.
  apply (proj2 (close_failure_masks_result echo_tool (broken_close_peer [])
                  {[ "text" := JStr "hello" ]} (Exn Exception "Connection closed")));
    reflexivity.
Defined.

End SessionFailures.

(** ** The loader, tool by tool *)

Section LoaderCases.
Import KeboolaMCPToolLoader.
Implicit Types (self : t) (peer : Peer) (discovered : list MCPTool).

Lemma collect_tools_from self discovered (acc : list KeboolaMCPTool.t) :
  foldl (λ tools mcp_tool,
           match make_tool self mcp_tool with
           | Return langchain_tool => (tools ++ [langchain_tool])%list
           | Raise _ => tools
           end) acc discovered
  = (acc ++ omap (λ mcp_tool, returned (make_tool self mcp_tool)) discovered)%list.
Proof.
  revert acc. induction discovered as [|mcp_tool rest IH]; intros acc; simpl.
  - by rewrite app_nil_r.
  - rewrite IH. destruct (make_tool self mcp_tool) as [langchain_tool|e]; simpl.
    + by rewrite <- app_assoc.
    + done.
Qed.

(** X12. The tools collected from a discovery response are, in the order of
    the response, the tools built for the entries whose construction
    succeeds; an entry whose construction raises is left out and does not
    affect the others. *)
Theorem collect_tools_skips_failures self discovered :
  collect_tools self discovered
  = omap (λ mcp_tool, returned (make_tool self mcp_tool)) discovered.
Proof. unfold collect_tools. by rewrite collect_tools_from. Qed.

Lemma make_tool_fields self mcp_tool langchain_tool :
  make_tool self mcp_tool = Return langchain_tool →
  KeboolaMCPTool.name langchain_tool = "keboola_" +:+ tool_name mcp_tool
  ∧ KeboolaMCPTool.mcp_tool_name langchain_tool = tool_name mcp_tool
  ∧ KeboolaMCPTool.server_params langchain_tool = server_params self
  ∧ KeboolaMCPTool.mcp_tool_description langchain_tool ≠ ""
  ∧ KeboolaMCPTool.description langchain_tool
    = "Keboola MCP Tool: " +:+ KeboolaMCPTool.mcp_tool_description langchain_tool.
Proof.
  unfold make_tool. destruct (schema_of mcp_tool) as [schema|e]; simpl; [|done].
  intros [= <-]. simpl. repeat split; try done.
  unfold str_or. destruct (tool_description mcp_tool) as [d|]; [|done].
  destruct (String.eqb d "") eqn:Hd; [done|]. by apply String.eqb_neq.
Qed.

Lemma load_tools_sync_from_collect self peer running tools :
  outcome (load_tools_sync self peer running) = Return tools →
  tools = [] ∨ ∃ discovered, tools = collect_tools self discovered.
Proof.
  rewrite load_tools_sync_outcome.
  destruct (running && _); [intros [= <-]; by left|].
  rewrite load_tools_outcome.
  destruct (45000 <? _)%N; [intros [= <-]; by left|].
  unfold _load_tools_impl, with_session. rewrite !outcome_bind. simpl.
  destruct (peer_connect peer (server_params self)).2; [|intros [= <-]; by left].
  destruct (peer_disconnect peer).2; [|intros [= <-]; by left].
  rewrite outcome_bind. simpl.
  destruct (peer_initialize peer).2; [|intros [= <-]; by left].
  rewrite outcome_bind. simpl.
  destruct (peer_list_tools peer).2 as [discovered|]; [|intros [= <-]; by left].
  intros [= <-]. right. by exists discovered.
Qed.

(** X13. Every tool the loader returns is named [keboola_<MCP name>], has a
    description that is not empty and is repeated after ["Keboola MCP Tool:
    "], and carries the loader's own server parameters. *)
Theorem loaded_tools_are_namespaced self peer running tools langchain_tool :
  outcome (load_tools_sync self peer running) = Return tools →
  langchain_tool ∈ tools →
  KeboolaMCPTool.name langchain_tool
    = "keboola_" +:+ KeboolaMCPTool.mcp_tool_name langchain_tool
  ∧ KeboolaMCPTool.mcp_tool_description langchain_tool ≠ ""
  ∧ KeboolaMCPTool.description langchain_tool
    = "Keboola MCP Tool: " +:+ KeboolaMCPTool.mcp_tool_description langchain_tool
  ∧ KeboolaMCPTool.server_params langchain_tool = server_params self.
Proof.
  intros Hload Hin.
  destruct (load_tools_sync_from_collect _ _ _ _ Hload) as [-> | [discovered ->]].
  { by apply elem_of_nil in Hin. }
  unfold collect_tools in Hin. rewrite collect_tools_from in Hin. simpl in Hin.
  apply list_elem_of_omap in Hin as (mcp_tool & _ & Hmade).
  destruct (make_tool self mcp_tool) as [made|e] eqn:Hmake; [|done].
  simpl in Hmade. injection Hmade as ->.
  destruct (make_tool_fields _ _ _ Hmake) as (Hname & Hmcp & Hparams & Hdesc & Hfull).
  rewrite Hmcp. by repeat split.
Qed.

(** X14. [load_tools_sync] never raises, on either kind of thread: whatever
    the tool server does, the caller gets a list. *)
Theorem load_tools_sync_never_raises self peer running :
  ∃ tools, outcome (load_tools_sync self peer running) = Return tools.
Proof.
  rewrite load_tools_sync_outcome. destruct (running && _); [by eexists|].
  apply load_tools_returns.
Qed.

(** X15. When every stage of the discovery session returns and the session
    takes at most 45 seconds, the loader returns the tools collected from
    the listed entries. *)
Theorem discovery_success self peer running discovered :
  (peer_connect peer (server_params self)).2 = Return tt →
  (peer_initialize peer).2 = Return tt →
  (peer_list_tools peer).2 = Return discovered →
  (peer_disconnect peer).2 = Return tt →
  (elapsed (_load_tools_impl self peer) ≤ 45000)%N →
  outcome (load_tools_sync self peer running)
  = Return (collect_tools self discovered).
Proof.
  intros Hconnect Hinit Hlist Hclose Hbound.
  assert (outcome (_load_tools_impl self peer) = Return (collect_tools self discovered))
    as Himpl.
  { unfold _load_tools_impl, with_session. rewrite !outcome_bind. simpl.
    rewrite Hconnect, Hclose. rewrite outcome_bind. simpl. rewrite Hinit.
    rewrite outcome_bind. simpl. by rewrite Hlist. }
  assert (outcome (load_tools self peer) = Return (collect_tools self discovered))
    as Hload.
  { rewrite load_tools_outcome, Himpl. by rewrite (proj2 (N.ltb_ge _ _) Hbound). }
  rewrite load_tools_sync_outcome, Hload.
  pose proof (load_tools_elapsed self peer) as Hquick.
  rewrite (proj2 (N.ltb_ge 60000 _)) by lia. by rewrite andb_false_r.
Qed.

(** X16. A tool that comes without input schema is built with an empty
    schema, and every payload for it is sent unfiltered. *)
Theorem schemaless_tool_passes_payload self (tool_name : string)
    (tool_description : option string) (arguments : gmap string json) :
  ∃ langchain_tool,
    make_tool self (McpTool tool_name tool_description NoSchema) = Return langchain_tool
    ∧ reconcile (schema_properties (KeboolaMCPTool.mcp_tool_schema langchain_tool))
        arguments = arguments.
Proof.
  eexists. split; [reflexivity|]. simpl. apply reconcile_no_schema.
Qed.

End LoaderCases.

Lemma loaded_tools_are_namespaced_witness :
  let echo := KeboolaMCPTool.Tool "keboola_echo" "Keboola MCP Tool: Echo the text"
                "echo" "Echo the text"
                (ToolSchema (Some [("text", string_schema)])) example_params in
  KeboolaMCPTool.name echo = "keboola_" +:+ KeboolaMCPTool.mcp_tool_name echo
  ∧ KeboolaMCPTool.mcp_tool_description echo ≠ ""
  ∧ KeboolaMCPTool.description echo
    = "Keboola MCP Tool: " +:+ KeboolaMCPTool.mcp_tool_description echo
  ∧ KeboolaMCPTool.server_params echo = example_params.
Proof.
  apply (loaded_tools_are_namespaced
           (KeboolaMCPToolLoader.Loader example_params) echo_peer true
           [KeboolaMCPTool.Tool "keboola_echo" "Keboola MCP Tool: Echo the text"
              "echo" "Echo the text"
              (ToolSchema (Some [("text", string_schema)])) example_params]).
  - vm_compute. reflexivity.
  - constructor.
Defined.

Lemma discovery_success_witness :
  outcome (KeboolaMCPToolLoader.load_tools_sync
             (KeboolaMCPToolLoader.Loader example_params) echo_peer true)
  = Return (KeboolaMCPToolLoader.collect_tools
              (KeboolaMCPToolLoader.Loader example_params)
              [McpTool "echo" (Some "Echo the text")
                 (DictSchema (ToolSchema (Some [("text", string_schema)])))]).
Proof.
  apply (discovery_success (KeboolaMCPToolLoader.Loader example_params) echo_peer true);
    try reflexivity.
  vm_compute. discriminate.
Defined.

(** ** The crew's environment *)

Section CrewCases.
Import KeboolaDataAnalysisCrew.
Implicit Types (environ : gmap string string).

Lemma not_set_false environ var :
  not_set environ var = false ↔ ∃ value, environ !! var = Some value ∧ value ≠ "".
Proof.
  unfold not_set, getenv. destruct (environ !! var) as [value|].
  - rewrite String.eqb_neq. split; [by eauto|]. by intros (? & [= <-] & ?).
  - split; [done|]. by intros (? & ? & _).
Qed.

(** X17. [validate_environment] passes exactly when [OPENAI_API_KEY],
    [KBC_STORAGE_TOKEN], [KBC_WORKSPACE_SCHEMA] and [KBC_STORAGE_API_URL]
    are all set to a non-empty string; a variable set to the empty string
    counts as missing. *)
Theorem validate_environment_iff environ :
  validate_environment environ = mret tt
  ↔ ∀ var, var ∈ required_vars →
           ∃ value, environ !! var = Some value ∧ value ≠ "".
Proof.
  unfold validate_environment.
  destruct (filter _ required_vars) as [|first others] eqn:Hfilter.
  - split; [|done]. intros _ var Hvar. apply not_set_false.
    destruct (not_set environ var) eqn:Hset; [|done].
    assert (var ∈ filter (λ var, Is_true (not_set environ var)) required_vars) as Hin.
    { apply list_elem_of_filter. by rewrite Hset. }
    rewrite Hfilter in Hin. by apply elem_of_nil in Hin.
  - split; [done|]. intros Hall.
    assert (first ∈ filter (λ var, Is_true (not_set environ var)) required_vars)
      as [Hset Hfirst]%list_elem_of_filter by (rewrite Hfilter; constructor).
    apply Hall, not_set_false in Hfirst. by rewrite Hfirst in Hset.
Qed.

Lemma validate_environment_passes environ :
  fully_configured environ → validate_environment environ = mret tt.
Proof.
  intros Hall. unfold validate_environment.
  destruct (filter _ required_vars) as [|first others] eqn:Hfilter; [done|].
  assert (first ∈ filter (λ var, Is_true (not_set environ var)) required_vars)
    as [Hset Hfirst]%list_elem_of_filter by (rewrite Hfilter; constructor).
  apply Hall, not_set_false in Hfirst. by rewrite Hfirst in Hset.
Qed.

Lemma list_tools_returns (tools : list toolset_tool) :
  Forall (λ tool, listed_description tool ≠ DescribedNone) tools →
  list_tools tools = Return tt.
Proof.
  induction 1 as [|tool rest Htool _ IH]; simpl; [done|].
  unfold list_tool. rewrite IH. by destruct (listed_description tool).
Qed.

Lemma list_tools_raises (tools : list toolset_tool) :
  Exists (λ tool, listed_description tool = DescribedNone) tools →
  list_tools tools = Raise (Exn Exception "'NoneType' object is not subscriptable").
Proof.
  induction tools as [|tool rest IH]; intros Hex; [by apply Exists_nil in Hex|].
  simpl. unfold list_tool.
  destruct (listed_description tool) eqn:Hdesc; [| |done].
  - apply Exists_cons in Hex as [Hhere|Hrest]; [congruence|]. by rewrite IH.
  - apply Exists_cons in Hex as [Hhere|Hrest]; [congruence|]. by rewrite IH.
Qed.

Lemma initialize_mcp_events self (initialize_reply : reply (list toolset_tool)) :
  events (initialize_mcp self initialize_reply)
  = [ToolSetInitialize (mcp_toolset self)].
Proof.
  unfold initialize_mcp, try_except, try_excepts, await, emit, lift,
    mbind, timed_bind, bind, raise.
  destruct initialize_reply as [took [tools|[cls message]]]; simpl; [|done].
  by destruct (list_tools (take 10 tools)) as [[]|[cls message]].
Qed.

Lemma initialize_mcp_outcome self (initialize_reply : reply (list toolset_tool)) :
  outcome (initialize_mcp self initialize_reply)
  = match initialize_reply.2 with
    | Return tools => list_tools (take 10 tools)
    | Raise e => Raise e
    end.
Proof.
  unfold initialize_mcp, try_except, try_excepts, await, emit, lift,
    mbind, timed_bind, bind, raise.
  destruct initialize_reply as [took [tools|[cls message]]]; simpl; [|done].
  by destruct (list_tools (take 10 tools)) as [[]|[cls message]].
Qed.

Lemma insert_own_value environ (var : string) (env : gmap string (option string)) :
  env !! var = Some <$> (environ !! var) →
  is_Some (environ !! var) →
  <[ var := getenv environ var ]> env = env.
Proof.
  intros Henv [value Hvalue]. apply insert_id. unfold getenv.
  by rewrite Henv, Hvalue.
Qed.

(** X18. With the four variables set, constructing the crew creates one
    tool set and does nothing else: its command is [uvx], its last argument
    the value of [KBC_STORAGE_API_URL], and its environment the process
    environment as it is (the three values written into the copy are the
    ones it already held). *)
Theorem crew_init_passes_environment environ :
  fully_configured environ →
  ∃ toolset,
    __init__ environ = Timed 0%N [ToolSetCreated toolset] (Return (Crew toolset))
    ∧ toolset_command toolset = "uvx"
    ∧ last (toolset_args toolset) = Some (environ !! "KBC_STORAGE_API_URL")
    ∧ toolset_env toolset = Some <$> environ.
Proof.
  intros Hall. pose proof (validate_environment_passes environ Hall) as Hvalid.
  assert (∀ var, var ∈ required_vars → is_Some (environ !! var)) as Hset.
  { intros var Hvar. destruct (Hall var Hvar) as (value & -> & _). by eexists. }
  eexists. split; [|split; [|split]].
  - unfold __init__. rewrite Hvalid. reflexivity.
  - reflexivity.
  - reflexivity.
  - simpl.
    rewrite (insert_own_value environ "KBC_STORAGE_API_URL");
      [|by rewrite lookup_fmap | apply Hset; by_evaluation].
    rewrite (insert_own_value environ "KBC_STORAGE_TOKEN");
      [|by rewrite lookup_fmap | apply Hset; by_evaluation].
    rewrite (insert_own_value environ "KBC_WORKSPACE_SCHEMA");
      [|by rewrite lookup_fmap | apply Hset; by_evaluation].
    done.
Qed.

(** X19. With the four variables set, the start of the crew creates the
    tool set and then initialises that same tool set once, in this order.
    An exception raised by the initialisation reaches the caller unchanged.
    When the initialisation returns, the start returns if none of the first
    ten tools has [None] as its description, and raises the [TypeError] of
    the listing loop if one has; tools after the tenth are not looked at. *)
Theorem crew_start_order environ (initialize_reply : reply (list toolset_tool)) :
  fully_configured environ →
  ∃ toolset,
    events (construct_and_initialize environ initialize_reply)
    = [ToolSetCreated toolset; ToolSetInitialize toolset]
    ∧ (∀ e, initialize_reply.2 = Raise e →
         outcome (construct_and_initialize environ initialize_reply) = Raise e)
    ∧ (∀ tools, initialize_reply.2 = Return tools →
         (Forall (λ tool, listed_description tool ≠ DescribedNone) (take 10 tools) →
          outcome (construct_and_initialize environ initialize_reply) = Return tt)
         ∧ (Exists (λ tool, listed_description tool = DescribedNone) (take 10 tools) →
            outcome (construct_and_initialize environ initialize_reply)
            = Raise (Exn Exception "'NoneType' object is not subscriptable"))).
Proof.
  intros Hall. pose proof (validate_environment_passes environ Hall) as Hvalid.
  assert (∃ toolset, __init__ environ
                     = Timed 0%N [ToolSetCreated toolset] (Return (Crew toolset)))
    as [toolset Hinit].
  { eexists. unfold __init__. rewrite Hvalid. reflexivity. }
  exists toolset. unfold construct_and_initialize.
  rewrite events_bind, outcome_bind, Hinit. cbn [outcome events].
  rewrite initialize_mcp_events, initialize_mcp_outcome. cbn [mcp_toolset app].
  split; [done|]. split.
  - by intros e ->.
  - intros tools ->. split.
    + apply list_tools_returns.
    + apply list_tools_raises.
Qed.

End CrewCases.

Lemma example_environ_configured : fully_configured example_environ.
Proof.
  intros var Hvar. unfold KeboolaDataAnalysisCrew.required_vars in Hvar.
  repeat (apply elem_of_cons in Hvar as [-> | Hvar];
          [eexists; split; [vm_compute; reflexivity | discriminate]|]).
  by apply elem_of_nil in Hvar.
Qed.

Lemma crew_init_passes_environment_witness :
  ∃ toolset,
    KeboolaDataAnalysisCrew.__init__ example_environ
    = Timed 0%N [ToolSetCreated toolset] (Return (KeboolaDataAnalysisCrew.Crew toolset))
    ∧ toolset_command toolset = "uvx"
    ∧ last (toolset_args toolset) = Some (example_environ !! "KBC_STORAGE_API_URL")
    ∧ toolset_env toolset = Some <$> example_environ.
Proof.
  apply (crew_init_passes_environment example_environ).
  exact example_environ_configured.
Defined.

Lemma crew_start_order_witness :
  let reply : reply (list KeboolaDataAnalysisCrew.toolset_tool) :=
    (0%N, Return [KeboolaDataAnalysisCrew.ToolsetTool (Some "list_buckets")
                    KeboolaDataAnalysisCrew.DescribedNone]) in
  ∃ toolset,
    events (KeboolaDataAnalysisCrew.construct_and_initialize example_environ reply)
    = [ToolSetCreated toolset; ToolSetInitialize toolset]
    ∧ outcome (KeboolaDataAnalysisCrew.construct_and_initialize example_environ reply)
      = Raise (Exn Exception "'NoneType' object is not subscriptable").
Proof.
  destruct (crew_start_order example_environ
              (0%N, Return [KeboolaDataAnalysisCrew.ToolsetTool (Some "list_buckets")
                              KeboolaDataAnalysisCrew.DescribedNone])
              example_environ_configured)
    as (toolset & Hevents & _ & Hreturned).
  exists toolset. split; [exact Hevents|].
  apply (Hreturned _ eq_refl). apply Exists_cons_hd. reflexivity.
Defined.

(** ** The loader's parameters and the agent's tool list *)

Section DiscoveryEvents.
Import KeboolaMCPToolLoader.
Implicit Types (self : t) (peer : Peer).

Lemma load_tools_impl_events self peer :
  events (_load_tools_impl self peer) = [SpawnStdio (server_params self)].
Proof.
  unfold _load_tools_impl, with_session, try_finally, await, emit,
    mbind, timed_bind, bind, mret, timed_ret, ret. simpl.
  destruct (peer_connect peer (server_params self)).2; simpl; [|done].
  destruct (peer_initialize peer).2; simpl; [|done].
  by destruct (peer_list_tools peer).2.
Qed.

Lemma load_tools_events self peer :
  events (load_tools self peer) = [SpawnStdio (server_params self)].
Proof.
  pose proof (load_tools_impl_events self peer) as Himpl.
  unfold load_tools, try_excepts, wait_for.
  destruct (_load_tools_impl self peer) as [took evs [tools|[cls message]]];
    simpl in *; subst evs.
  - by destruct (45000 <? took)%N.
  - destruct (45000 <? took)%N; simpl; [done|]. by destruct cls.
Qed.

Lemma load_tools_sync_events self peer running :
  events (load_tools_sync self peer running) = [SpawnStdio (server_params self)].
Proof.
  pose proof (load_tools_events self peer) as Hevents.
  destruct (load_tools_returns self peer) as [tools Htools].
  unfold load_tools_sync.
  destruct (load_tools self peer) as [took evs out]. simpl in *. subst.
  unfold try_excepts, get_running_loop, asyncio_run,
    future_result, run_async, try_finally, mbind, timed_bind, bind, ret, raise.
  destruct running; simpl; [|done].
  rewrite N.add_0_r. by destruct (60000 <? took)%N.
Qed.

End DiscoveryEvents.

Section AgentCases.
Context `{PyRuntime}.
Implicit Types (environ : gmap string string) (peer : Peer).

(** X20. With the endpoint URL and the token set and a parameter object
    that accepts string values, [get_keboola_tools] does not raise and
    starts the tool server exactly once, also when discovery fails or times
    out: as [uvx --from keboola-mcp-server@1.0.0 keboola-mcp-server] with
    the URL, the token and the workspace schema of the process environment,
    the workspace schema being the empty string when it is unset. *)
Theorem get_keboola_tools_launch environ peer running (url token : string) :
  accepts_string_values →
  environ !! "KBC_STORAGE_API_URL" = Some url →
  environ !! "KBC_STORAGE_TOKEN" = Some token →
  (∃ tools,
     outcome (KeboolaMCPToolLoader.get_keboola_tools environ peer running)
     = Return tools)
  ∧ events (KeboolaMCPToolLoader.get_keboola_tools environ peer running)
    = [SpawnStdio
         (ServerParams "uvx"
            ["--from"; "keboola-mcp-server@1.0.0"; "keboola-mcp-server"]
            [ ("KBC_STORAGE_API_URL", Some url);
              ("KBC_STORAGE_TOKEN", Some token);
              ("KBC_WORKSPACE_SCHEMA",
               Some (default "" (environ !! "KBC_WORKSPACE_SCHEMA"))) ])].
Proof.
  intros Haccepts Hurl Htoken.
  unfold KeboolaMCPToolLoader.get_keboola_tools, KeboolaMCPToolLoader.__init__,
    getenv, getenv_default.
  rewrite Hurl, Htoken.
  match goal with
  | |- context [validate_params ?params] =>
      rewrite (Haccepts params) by (repeat constructor; by eexists);
      set (loader := KeboolaMCPToolLoader.Loader params)
  end.
  split.
  - rewrite outcome_bind.
    change (outcome (lift (Return ());; mret loader)) with (Return loader).
    cbv beta iota. rewrite load_tools_sync_outcome. destruct (running && _); [by eexists|].
    apply load_tools_returns.
  - rewrite events_bind.
    change (outcome (lift (Return ());; mret loader)) with (Return loader).
    change (events (lift (Return ());; mret loader)) with (@nil event).
    cbv beta iota. by rewrite load_tools_sync_events.
Qed.

Lemma get_keboola_tools_unconfigured environ peer running :
  rejects_None_values →
  environ !! "KBC_STORAGE_API_URL" = None ∨ environ !! "KBC_STORAGE_TOKEN" = None →
  ∃ e, KeboolaMCPToolLoader.get_keboola_tools environ peer running
       = Timed 0%N [] (Raise e).
Proof.
  intros Hrejects Hmissing.
  unfold KeboolaMCPToolLoader.get_keboola_tools, KeboolaMCPToolLoader.__init__.
  match goal with
  | |- context [validate_params ?params] =>
      destruct (Hrejects params) as [e He]
  end.
  { simpl. unfold getenv. destruct Hmissing as [-> | ->].
    - by apply Exists_cons_hd.
    - by apply Exists_cons_tl, Exists_cons_hd. }
  rewrite He. by exists e.
Qed.

(** X21. [_load_all_tools] never raises: it returns the Keboola tools
    followed by the additional tools, each group being empty when its
    loader raised. *)
Theorem load_all_tools_never_raises environ peer running
    (get_additional_tools : timed (list DataAnalystAgent.tool)) :
  outcome (DataAnalystAgent._load_all_tools environ peer running get_additional_tools)
  = Return
      ((DataAnalystAgent.KeboolaTool
          <$> tools_or_none
                (outcome (KeboolaMCPToolLoader.get_keboola_tools environ peer running)))
       ++ tools_or_none (outcome get_additional_tools))%list.
Proof.
  unfold DataAnalystAgent._load_all_tools.
  destruct (KeboolaMCPToolLoader.get_keboola_tools environ peer running)
    as [took1 evs1 [keboola_tools|[cls1 message1]]];
    destruct get_additional_tools as [took2 evs2 [additional|[cls2 message2]]];
    unfold try_except, try_excepts, mbind, timed_bind, bind, mret, timed_ret, ret;
    simpl; by rewrite ?app_nil_r.
Qed.

(** X22. With the endpoint URL or the token unset and a parameter object
    that refuses [None] values, the agent's tool list is made of the
    additional tools alone: the configuration error of the loader is
    swallowed and no tool server is started. *)
Theorem agent_without_configuration environ peer running
    (get_additional_tools : timed (list DataAnalystAgent.tool)) :
  rejects_None_values →
  environ !! "KBC_STORAGE_API_URL" = None ∨ environ !! "KBC_STORAGE_TOKEN" = None →
  outcome (DataAnalystAgent._load_all_tools environ peer running get_additional_tools)
  = Return (tools_or_none (outcome get_additional_tools))
  ∧ events (DataAnalystAgent._load_all_tools environ peer running get_additional_tools)
    = events get_additional_tools.
Proof.
  intros Hrejects Hmissing.
  destruct (get_keboola_tools_unconfigured environ peer running Hrejects Hmissing)
    as [[cls message] Hraise].
  unfold DataAnalystAgent._load_all_tools. rewrite Hraise.
  destruct get_additional_tools as [took2 evs2 [additional|[cls2 message2]]];
    unfold try_except, try_excepts, mbind, timed_bind, bind, mret, timed_ret, ret;
    simpl; by rewrite ?app_nil_r.
Qed.

End AgentCases.

Lemma example_runtime_accepts_strings : @accepts_string_values example_runtime.
Proof.
  intros params Hall. simpl. unfold strings_only.
  by rewrite bool_decide_eq_true_2.
Qed.

Lemma get_keboola_tools_launch_witness :
  let environ : gmap string string :=
    {[ "KBC_STORAGE_API_URL" := "https://connection.keboola.com";
       "KBC_STORAGE_TOKEN" := "token" ]} in
  (∃ tools,
     outcome (@KeboolaMCPToolLoader.get_keboola_tools example_runtime
                environ echo_peer true) = Return tools)
  ∧ events (@KeboolaMCPToolLoader.get_keboola_tools example_runtime
              environ echo_peer true)
    = [SpawnStdio
         (ServerParams "uvx"
            ["--from"; "keboola-mcp-server@1.0.0"; "keboola-mcp-server"]
            [ ("KBC_STORAGE_API_URL", Some "https://connection.keboola.com");
              ("KBC_STORAGE_TOKEN", Some "token");
              ("KBC_WORKSPACE_SCHEMA",
               Some (default "" (environ !! "KBC_WORKSPACE_SCHEMA"))) ])].
Proof.
  apply (@get_keboola_tools_launch example_runtime
           {[ "KBC_STORAGE_API_URL" := "https://connection.keboola.com";
              "KBC_STORAGE_TOKEN" := "token" ]}
           echo_peer true "https://connection.keboola.com" "token").
  - exact example_runtime_accepts_strings.
  - vm_compute. reflexivity.
  - vm_compute. reflexivity.
Defined.

Lemma agent_without_configuration_witness :
  let additional := [DataAnalystAgent.AdditionalTool "financial_data" "Fetch financial data"] in
  outcome (@DataAnalystAgent._load_all_tools example_runtime ∅ echo_peer false
             (mret additional))
  = Return additional
  ∧ events (@DataAnalystAgent._load_all_tools example_runtime ∅ echo_peer false
              (mret additional))
    = [].
Proof.
  exact (@agent_without_configuration example_runtime ∅ echo_peer false
           (mret [DataAnalystAgent.AdditionalTool "financial_data" "Fetch financial data"])
           example_runtime_rejects_None (or_introl eq_refl)).
Defined.

(** ** The time-out of the bridge *)

Section BridgeTimeout.
Import KeboolaMCPTool.
Context `{PyRuntime}.
Implicit Types (self : t) (peer : Peer) (arguments kwargs : gmap string json).

(** X23. On a thread with a running event loop, a call that takes more than
    30 seconds makes [_run] return ["Error running MCP tool <name>: "] with
    nothing after the colon, whatever the call would have returned. *)
Theorem run_timeout_text self peer tool_input kwargs arguments :
  outcome (payload tool_input kwargs) = Return arguments →
  (30000 < elapsed (_arun_with_args self peer arguments))%N →
  outcome (_run self peer true tool_input kwargs)
  = Return ("Error running MCP tool " +:+ mcp_tool_name self +:+ ": ").
Proof.
  intros Hpayload Hslow%N.ltb_lt. rewrite run_outcome, Hpayload. simpl.
  rewrite Hslow. reflexivity.
Qed.

Lemma bridge_elapsed running (work : timed string) :
  (∃ text, outcome work = Return text) →
  elapsed (try_except
             (get_running_loop running;;
              future_result 30000%N (run_async work))
             RuntimeError
             (λ _, asyncio_run running work))
  = elapsed work.
Proof.
  intros [text Hwork]. destruct work as [took evs out]. simpl in Hwork. subst out.
  unfold try_except, try_excepts, get_running_loop, asyncio_run, future_result,
    run_async, try_finally, mbind, timed_bind, bind, mret, timed_ret, ret, raise.
  destruct running; simpl; [|done].
  rewrite N.add_0_r. by destruct (30000 <? took)%N.
Qed.

(** X24. The time-out of the bridge does not shorten the call: on either
    kind of thread [_run] takes as long as the session it started, because
    leaving the executor's [with] block waits for the worker thread. *)
Theorem run_waits_for_the_call self peer running tool_input kwargs arguments :
  outcome (payload tool_input kwargs) = Return arguments →
  elapsed (_run self peer running tool_input kwargs)
  = elapsed (_arun_with_args self peer arguments).
Proof.
  intros Hpayload. destruct (payload_quiet tool_input kwargs) as [_ Hquick].
  unfold _run. rewrite elapsed_try_except_Exception, elapsed_bind, Hpayload, Hquick.
  simpl. apply bridge_elapsed.
  rewrite arun_with_args_outcome.
  destruct (outcome (call_in_session _ _ _)); by eexists.
Qed.

End BridgeTimeout.

Lemma run_timeout_text_witness :
  let peer := slow_peer 31000 (ToolResult (Some (ContentList [TextPart "hello"])) "") in
  outcome (@KeboolaMCPTool._run example_runtime echo_tool peer true "hello" ∅)
  = Return "Error running MCP tool echo: ".
Proof.
  apply (@run_timeout_text example_runtime echo_tool
           (slow_peer 31000 (ToolResult (Some (ContentList [TextPart "hello"])) ""))
           "hello" ∅ {[ "query" := JStr "hello" ]}).
  - vm_compute. reflexivity.
  - vm_compute. reflexivity.
Defined.

Lemma run_waits_for_the_call_witness :
  let peer := slow_peer 31000 (ToolResult (Some (ContentList [TextPart "hello"])) "") in
  elapsed (@KeboolaMCPTool._run example_runtime echo_tool peer true "hello" ∅)
  = elapsed (KeboolaMCPTool._arun_with_args echo_tool peer {[ "query" := JStr "hello" ]}).
Proof.
  apply (@run_waits_for_the_call example_runtime echo_tool
           (slow_peer 31000 (ToolResult (Some (ContentList [TextPart "hello"])) ""))
           true "hello" ∅ {[ "query" := JStr "hello" ]}).
  vm_compute. reflexivity.
Defined.

(** ** The crew's analysis run *)

Section CrewRun.
Import KeboolaDataAnalysisCrew.
Context {A : Type}.
Implicit Types (self : t) (create_crew cleanup : timed unit) (kickoff : timed A).

Lemma reraise_identity {B} (body : timed B) :
  try_except body Exception (λ e, raise e) = body
  ∨ (∃ e, outcome body = Raise e
          ∧ try_except body Exception (λ e, raise e)
            = Timed (elapsed body + 0)%N (events body ++ [])%list (Raise e)).
Proof.
  unfold try_except, try_excepts.
  destruct (outcome body) as [b|e] eqn:Hbody; [by left|].
  right. by exists e.
Qed.

Lemma cleanup_swallowed cleanup :
  outcome (try_except cleanup Exception (λ _, mret ())) = Return ()
  ∧ events (try_except cleanup Exception (λ _, mret ())) = events cleanup.
Proof.
  split.
  - rewrite (outcome_try_except_Exception cleanup (λ _, ())).
    by destruct (outcome cleanup) as [[]|].
  - apply (events_try_except_Exception cleanup (λ _, ())).
Qed.

(** X25. [run_analysis] ends the way its steps end (the result of
    [kickoff], or the first exception of the initialisation, the
    construction or the kick-off) whatever the cleanup does, and the cleanup
    is attempted exactly once, after the steps, on every path. *)
Theorem run_analysis_always_cleans_up self
    (initialize_reply : reply (list toolset_tool))
    create_crew kickoff cleanup :
  outcome (run_analysis self initialize_reply create_crew kickoff cleanup)
  = outcome (analysis_steps self initialize_reply create_crew kickoff)
  ∧ events (run_analysis self initialize_reply create_crew kickoff cleanup)
    = (events (analysis_steps self initialize_reply create_crew kickoff)
       ++ events cleanup)%list.
Proof.
  destruct (cleanup_swallowed cleanup) as [Hout Hevents].
  unfold run_analysis, try_finally. simpl. rewrite Hout, Hevents.
  destruct (reraise_identity (analysis_steps self initialize_reply create_crew kickoff))
    as [-> | (e & Hraise & ->)]; [done|].
  simpl. by rewrite Hraise, app_nil_r.
Qed.

(** X26. When [mcp_toolset.initialize()] raises, [run_analysis] raises the
    same exception without constructing the agents or starting the crew, and
    still attempts the cleanup. *)
Theorem run_analysis_stops_at_initialize self (took : N) (e : exn)
    create_crew kickoff cleanup :
  outcome (run_analysis self (took, Raise e) create_crew kickoff cleanup) = Raise e
  ∧ events (run_analysis self (took, Raise e) create_crew kickoff cleanup)
    = (ToolSetInitialize (mcp_toolset self) :: events cleanup).
Proof.
  destruct (cleanup_swallowed cleanup) as [Hout Hevents].
  unfold run_analysis, try_finally. simpl. rewrite Hout, Hevents.
  unfold analysis_steps, initialize_mcp, try_except, try_excepts, await, emit,
    mbind, timed_bind, bind, raise. simpl.
  done.
Qed.

End CrewRun.

(** ** The DSPy agents' tool tables *)

Section ToolTables.
Import KeboolaDataAnalyst.
Implicit Types (self : t) (tools : list dspy_tool).

Lemma info_of_found tools (wanted : string) :
  wanted ∈ name <$> tools →
  info_of tools wanted !! "name" = Some (JStr wanted).
Proof.
  induction tools as [|tool rest IH]; simpl; [by intros ?%elem_of_nil|].
  destruct (String.eqb (name tool) wanted) eqn:Hname.
  - apply String.eqb_eq in Hname as ->. intros _.
    by rewrite lookup_insert_eq.
  - apply String.eqb_neq in Hname. intros [->|Hrest]%elem_of_cons; [done|].
    by apply IH.
Qed.

Lemma info_of_missing tools (wanted : string) :
  wanted ∉ name <$> tools → info_of tools wanted = ∅.
Proof.
  induction tools as [|tool rest IH]; simpl; [done|].
  intros Hnot. apply not_elem_of_cons in Hnot as [Hne Hrest].
  destruct (String.eqb (name tool) wanted) eqn:Hname.
  - by apply String.eqb_eq in Hname.
  - by apply IH.
Qed.

(** X27. On an initialised agent, asking for a tool by a non-empty name
    gives a non-empty answer exactly when that name is among
    [get_available_tools()], and the answer then carries the name asked
    for; an agent that is not initialised answers with the empty
    dictionary. *)
Theorem tool_info_by_name self (wanted : string) :
  wanted ≠ "" →
  (_initialized self = true →
     (get_tool_info self (Some wanted) ≠ ∅ ↔ wanted ∈ get_available_tools self)
     ∧ (wanted ∈ get_available_tools self →
        get_tool_info self (Some wanted) !! "name" = Some (JStr wanted)))
  ∧ (_initialized self = false → get_tool_info self (Some wanted) = ∅).
Proof.
  intros Hwanted%String.eqb_neq. unfold get_tool_info, get_available_tools.
  split; intros ->; simpl; [|done]. rewrite Hwanted. simpl. split.
  - split.
    + intros Hinfo. destruct (decide (wanted ∈ name <$> tools self)); [done|].
      by rewrite info_of_missing in Hinfo.
    + intros Hin Hinfo. apply info_of_found in Hin.
      by rewrite Hinfo, lookup_empty in Hin.
  - apply info_of_found.
Qed.

Lemma info_table_dom_from tools (table : gmap string json) :
  dom (foldl (λ table tool,
                <[ name tool := JObj [("description", description_of tool)] ]> table)
             table tools)
  = dom table ∪ list_to_set (name <$> tools).
Proof.
  revert table. induction tools as [|tool rest IH]; intros table; simpl.
  - by rewrite (right_id_L ∅ (∪)).
  - rewrite IH, dom_insert_L.
    rewrite (comm_L (∪) {[name tool]} (dom table)).
    by rewrite <- (assoc_L (∪)).
Qed.

(** X28. The table of all tools has exactly the names of
    [get_available_tools()] as its keys, on an initialised agent and on one
    that is not (both are then empty), whether the name is left out or is
    the empty string. *)
Theorem tool_table_keys self :
  dom (get_tool_info self None) = list_to_set (get_available_tools self)
  ∧ get_tool_info self (Some "") = get_tool_info self None.
Proof.
  unfold get_tool_info, get_available_tools.
  destruct (_initialized self); simpl; split; try done.
  unfold info_table. rewrite info_table_dom_from, dom_empty_L.
  by rewrite (left_id_L ∅ (∪)).
Qed.

End ToolTables.

Lemma tool_info_by_name_witness :
  let self := KeboolaDataAnalyst.Analyst
                [KeboolaDataAnalyst.DspyTool "list_buckets" None] true in
  (KeboolaDataAnalyst.get_tool_info self (Some "list_buckets") ≠ ∅
   ↔ "list_buckets" ∈ KeboolaDataAnalyst.get_available_tools self)
  ∧ ("list_buckets" ∈ KeboolaDataAnalyst.get_available_tools self →
     KeboolaDataAnalyst.get_tool_info self (Some "list_buckets") !! "name"
     = Some (JStr "list_buckets")).
Proof.
  apply (proj1 (tool_info_by_name
                  (KeboolaDataAnalyst.Analyst
                     [KeboolaDataAnalyst.DspyTool "list_buckets" None] true)
                  "list_buckets" ltac:(discriminate))).
  reflexivity.
Defined.

(** ** Configuration that is missing: the crew and the loader *)

Section MissingConfiguration.
Context `{PyRuntime}.
Implicit Types (environ : gmap string string) (peer : Peer).

(** C7 (where the code departs from it). With the endpoint URL or the token
    missing in the sense of [validate_environment] (unset, or set to the
    empty string), constructing the crew raises [ValueError] before anything
    is created, but [get_keboola_tools] has no check of its own: as soon as
    the parameter object is constructed from what [os.getenv] gave, it
    returns a list and has entered [stdio_client] with those values. *)
Theorem loader_launches_where_crew_refuses environ peer running :
  KeboolaDataAnalysisCrew.not_set environ "KBC_STORAGE_API_URL" = true
  ∨ KeboolaDataAnalysisCrew.not_set environ "KBC_STORAGE_TOKEN" = true →
  validate_params (loader_parameters environ) = Return tt →
  (∃ e, outcome (KeboolaDataAnalysisCrew.__init__ environ) = Raise e
        ∧ exn_class e = ValueError)
  ∧ events (KeboolaDataAnalysisCrew.__init__ environ) = []
  ∧ (∃ tools,
       outcome (KeboolaMCPToolLoader.get_keboola_tools environ peer running)
       = Return tools)
  ∧ events (KeboolaMCPToolLoader.get_keboola_tools environ peer running)
    = [SpawnStdio (loader_parameters environ)].
Proof.
  intros Hmissing Hconstructed.
  assert (∃ message, KeboolaDataAnalysisCrew.validate_environment environ
                     = raise (Exn ValueError message)) as [message Hvalidate].
  { destruct Hmissing as [Hurl | Htoken].
    - by apply (validate_environment_missing environ "KBC_STORAGE_API_URL");
        [by_evaluation|].
    - by apply (validate_environment_missing environ "KBC_STORAGE_TOKEN");
        [by_evaluation|]. }
  split; [|split].
  - exists (Exn ValueError message).
    unfold KeboolaDataAnalysisCrew.__init__. by rewrite Hvalidate.
  - unfold KeboolaDataAnalysisCrew.__init__. by rewrite Hvalidate.
  - unfold KeboolaMCPToolLoader.get_keboola_tools, KeboolaMCPToolLoader.__init__.
    change (ServerParams _ _ _) with (loader_parameters environ).
    rewrite Hconstructed.
    set (loader := KeboolaMCPToolLoader.Loader (loader_parameters environ)).
    split.
    + rewrite outcome_bind.
      change (outcome (lift (Return ());; mret loader)) with (Return loader).
      cbv beta iota. rewrite load_tools_sync_outcome.
      destruct (running && _); [by eexists|]. apply load_tools_returns.
    + rewrite events_bind.
      change (outcome (lift (Return ());; mret loader)) with (Return loader).
      change (events (lift (Return ());; mret loader)) with (@nil event).
      cbv beta iota. by rewrite load_tools_sync_events.
Qed.

End MissingConfiguration.

Lemma loader_launches_where_crew_refuses_witness :
  (∃ e, outcome (KeboolaDataAnalysisCrew.__init__ empty_token_environ) = Raise e
        ∧ exn_class e = ValueError)
  ∧ events (KeboolaDataAnalysisCrew.__init__ empty_token_environ) = []
  ∧ (∃ tools,
       outcome (@KeboolaMCPToolLoader.get_keboola_tools example_runtime
                  empty_token_environ echo_peer false) = Return tools)
  ∧ events (@KeboolaMCPToolLoader.get_keboola_tools example_runtime
              empty_token_environ echo_peer false)
    = [SpawnStdio (loader_parameters empty_token_environ)].
Proof.
  apply (@loader_launches_where_crew_refuses example_runtime
           empty_token_environ echo_peer false).
  - right. vm_compute. reflexivity.
  - vm_compute. reflexivity.
Defined.

(** The failing input evaluated: with [KBC_STORAGE_TOKEN] set to the empty
    string the crew names the token as missing, and the loader starts the
    tool server with the empty token and returns its tools. *)
Example empty_token_launch :
  outcome (KeboolaDataAnalysisCrew.__init__ empty_token_environ)
  = Raise (Exn ValueError "Missing environment variables: ['KBC_STORAGE_TOKEN']")
  ∧ events (@KeboolaMCPToolLoader.get_keboola_tools example_runtime
              empty_token_environ echo_peer false)
    = [SpawnStdio
         (ServerParams "uvx"
            ["--from"; "keboola-mcp-server@1.0.0"; "keboola-mcp-server"]
            [ ("KBC_STORAGE_API_URL", Some "https://connection.keboola.com");
              ("KBC_STORAGE_TOKEN", Some "");
              ("KBC_WORKSPACE_SCHEMA", Some "WORKSPACE_1") ])]
  ∧ ∃ tool, outcome (@KeboolaMCPToolLoader.get_keboola_tools example_runtime
                       empty_token_environ echo_peer false) = Return [tool].
Proof.
  split; [|split].
  - vm_compute. reflexivity.
  - vm_compute. reflexivity.
  - eexists. vm_compute. reflexivity.
Qed.
